(** * monitoring_agent: the ETL pipeline

    A shallow embedding of [etl/transformer.py] (class [DataTransformer]), of
    [etl/pipeline.py] (class [ETLPipeline]), and of the parts of
    [etl/loader.py] and [etl/extractor.py] that the pipeline runs through,
    with the properties that the specification states about them and
    further properties of the code.

    Conventions of the embedding:
    - a Python call either returns a value or raises; [py A] records which;
    - a Python [str] is the string of the bytes of its UTF-8 encoding, and
      [len] counts its code points;
    - a Python [dict] with string keys is an association list in insertion
      order, keys unique; [d[k] = v] is [dict_set];
    - a [datetime] is its number of seconds since the epoch, a Python [int]
      is a [Z];
    - the value of a sample is a finite [float], held as the rational that
      it denotes, or [nan], or [None]; the success rate of the statistics is
      a [float] computed in binary64, as [spec_float] of the Standard Library
      computes;
    - logging has no effect on any returned value and is left out. *)

From Stdlib Require Import String Ascii List ZArith QArith Bool Lia.
From Stdlib Require Import Floats.SpecFloat.
Import ListNotations.

Open Scope Z_scope.
Open Scope string_scope.
Open Scope list_scope.

(** ** Outcomes of Python calls *)

Inductive exn : Type :=
| TypeError (msg : string)
| KeyError (key : string)
| AttributeError (msg : string).

Inductive py (A : Type) : Type :=
| Returned (a : A)
| Raised (e : exn).

Arguments Returned {A} a.
Arguments Raised {A} e.

Definition bind {A B : Type} (m : py A) (k : A -> py B) : py B :=
  match m with
  | Returned a => k a
  | Raised e => Raised e
  end.

Notation "x <- m ;; k" := (bind m (fun x => k))
  (at level 61, m at next level, right associativity).

(** [try: m  except Exception: handler] *)
Definition try_except {A : Type} (m : py A) (handler : exn -> py A) : py A :=
  match m with
  | Returned a => Returned a
  | Raised e => handler e
  end.

(** Monadic filter: the predicate is evaluated row after row, and the first
    exception aborts the whole pass (as [Series.apply] does). *)
Fixpoint filterM {A : Type} (f : A -> py bool) (l : list A) : py (list A) :=
  match l with
  | [] => Returned []
  | x :: tl =>
      b <- f x ;;
      rest <- filterM f tl ;;
      Returned (if b then x :: rest else rest)
  end.

(** ** Python dictionaries with string keys *)

Definition dict (V : Type) : Type := list (string * V).

Fixpoint dict_lookup {V : Type} (d : dict V) (k : string) : option V :=
  match d with
  | [] => None
  | (k', v) :: tl => if String.eqb k' k then Some v else dict_lookup tl k
  end.

(** [d.get(k, default)] *)
Definition dict_get {V : Type} (d : dict V) (k : string) (default : V) : V :=
  match dict_lookup d k with
  | Some v => v
  | None => default
  end.

(** [d[k] = v]: an existing key keeps its position, a new one goes last. *)
Fixpoint dict_set {V : Type} (d : dict V) (k : string) (v : V) : dict V :=
  match d with
  | [] => [(k, v)]
  | (k', v') :: tl =>
      if String.eqb k' k then (k', v) :: tl else (k', v') :: dict_set tl k v
  end.

Definition str_in (s : string) (l : list string) : bool :=
  existsb (String.eqb s) l.

(** ** Python strings *)

(** A byte [10xxxxxx], which continues a code point in UTF-8. *)
Definition is_continuation_byte (c : ascii) : bool :=
  match c with
  | Ascii _ _ _ _ _ _ b6 b7 => b7 && negb b6
  end.

(** [len(s)]: the number of code points of [s], which is the number of
    bytes of its UTF-8 encoding that are not continuation bytes. *)
Fixpoint len (s : string) : nat :=
  match s with
  | EmptyString => O
  | String c rest => ((if is_continuation_byte c then 0 else 1) + len rest)%nat
  end.

(** ** Data model *)

(** What the [value] entry of a sample, and a cell of the [value] column,
    can hold: [None], the float [nan], or a finite float. *)
Inductive value_cell : Type :=
| PyNone
| NaN
| Num (q : Q).

(** One observation as the extractor builds it: a dict with the four keys
    [timestamp], [metric_name], [labels], [value]. [timestamp] and [labels]
    may be [None]. *)
Record RawSample : Type := mkRawSample {
  timestamp : option Z;
  metric_name : string;
  labels : option (dict string);
  value : value_cell
}.

(** One InfluxDB point, as [_to_influxdb_format] builds it. *)
Module StoragePoint.
Record t : Type := mk {
  measurement : string;
  tags : dict string;
  fields : dict value_cell;
  timestamp : option Z
}.
End StoragePoint.

(** [self.cleaning_config]: each option is read with [.get(key, True)], so
    an absent key ([None] here) counts as enabled. *)
Record CleaningConfig : Type := mkCleaningConfig {
  remove_nulls : option bool;
  validate_timestamps : option bool;
  remove_duplicates : option bool;
  validate_value_ranges : option bool
}.

Definition get_flag (o : option bool) (default : bool) : bool :=
  match o with
  | Some b => b
  | None => default
  end.

(** The state of a [DataTransformer] object. [valid_metrics] is a Python
    [set]; the list is one enumeration of it. *)
Record DataTransformer : Type := mkDataTransformer {
  valid_metrics : list string;
  cleaning_config : CleaningConfig
}.

(** The double quote character of the error-rate query. *)
Definition dquote : string := String "034"%char EmptyString.

(** [rate(http_requests_total{status=~"5.."}[5m])] *)
Definition error_rate_query : string :=
  String.append "rate(http_requests_total{status=~"
    (String.append dquote (String.append "5.." (String.append dquote "}[5m])"))).

Definition default_valid_metrics : list string :=
  [ "up";
    "http_requests_total";
    "http_request_duration_seconds_bucket";
    "rate(http_requests_total[5m])";
    "histogram_quantile(0.95, rate(http_request_duration_seconds_bucket[5m]))";
    error_rate_query ].

Definition default_cleaning_config : CleaningConfig :=
  {| remove_nulls := Some true;
     validate_timestamps := Some true;
     remove_duplicates := Some true;
     validate_value_ranges := Some true |}.

(** [config.get('transform', {})]: the two entries that [__init__] reads,
    [None] for an absent entry. *)
Record TransformConfig : Type := mkTransformConfig {
  config_valid_metrics : option (list string);
  config_data_cleaning : option CleaningConfig
}.

(** [DataTransformer.__init__] *)
Definition DataTransformer__init__ (transform_config : TransformConfig)
    : DataTransformer :=
  {| valid_metrics :=
       match config_valid_metrics transform_config with
       | Some names => names
       | None => default_valid_metrics
       end;
     cleaning_config :=
       match config_data_cleaning transform_config with
       | Some cfg => cfg
       | None => default_cleaning_config
       end |}.

(** [DataTransformer(config)] for a [config] without a [transform] section. *)
Definition default_transformer : DataTransformer :=
  DataTransformer__init__
    {| config_valid_metrics := None; config_data_cleaning := None |}.

(** ** The part of pandas that the transformer uses *)

(** A frame: its column labels and its rows. A row carries a cell for each
    of the four sample keys; cells of columns that are not listed in
    [columns] are never read. *)
Record DataFrame : Type := mkDataFrame {
  columns : list string;
  rows : list RawSample
}.

Definition in_columns (c : string) (df : DataFrame) : bool :=
  str_in c (columns df).

Definition with_rows (df : DataFrame) (rs : list RawSample) : DataFrame :=
  {| columns := columns df; rows := rs |}.

(** [df.empty] *)
Definition empty (df : DataFrame) : bool :=
  match columns df, rows df with
  | [], _ => true
  | _, [] => true
  | _, _ => false
  end.

Definition is_float (v : value_cell) : bool :=
  match v with
  | PyNone => false
  | _ => true
  end.

(** The keys of a sample, which become the columns of the frame. *)
Definition sample_keys : list string :=
  ["timestamp"; "metric_name"; "labels"; "value"].

(** [pd.DataFrame(raw_data)] for a non-empty list of samples. A [value]
    column that holds at least one float is a float64 column, in which
    [None] is stored as [nan]; a column of [None] only keeps its objects. *)
Definition pd_DataFrame (raw_data : list RawSample) : DataFrame :=
  let float_column := existsb (fun s => is_float (value s)) raw_data in
  let cell v :=
    match v with
    | PyNone => if float_column then NaN else PyNone
    | _ => v
    end in
  {| columns := sample_keys;
     rows := map (fun s => {| timestamp := timestamp s;
                              metric_name := metric_name s;
                              labels := labels s;
                              value := cell (value s) |}) raw_data |}.

(** [pd.notna] on a [value] cell. *)
Definition value_notna (v : value_cell) : bool :=
  match v with
  | Num _ => true
  | _ => false
  end.

Definition require_column (c : string) (df : DataFrame) : py unit :=
  if in_columns c df then Returned tt else Raised (KeyError c).

(** [df.dropna(subset=['value'])] *)
Definition dropna_value (df : DataFrame) : py DataFrame :=
  _ <- require_column "value" df ;;
  Returned (with_rows df (filter (fun r => value_notna (value r)) (rows df))).

(** [df[df['timestamp'].notna()]] *)
Definition select_timestamp_notna (df : DataFrame) : py DataFrame :=
  _ <- require_column "timestamp" df ;;
  Returned (with_rows df
    (filter (fun r => match timestamp r with Some _ => true | None => false end)
            (rows df))).

(** [df[df['metric_name'].isin(valid)]] *)
Definition select_metric_isin (valid : list string) (df : DataFrame) : DataFrame :=
  with_rows df (filter (fun r => str_in (metric_name r) valid) (rows df)).

(** The key of a row for [drop_duplicates(subset=...)]. The source passes
    the subsets [timestamp; metric_name; labels] and [timestamp] only. A
    [labels] column takes part in the key through hashing: a dict cell cannot
    be hashed, and [None] cells are all the same missing value, so the
    column adds nothing to the key of a frame that can be deduplicated. *)
Definition row_key : Type := option (option Z) * option string.

Definition key_of (subset : list string) (r : RawSample) : row_key :=
  (if str_in "timestamp" subset then Some (timestamp r) else None,
   if str_in "metric_name" subset then Some (metric_name r) else None).

Definition option_eqb {A : Type} (eqb : A -> A -> bool) (x y : option A) : bool :=
  match x, y with
  | Some a, Some b => eqb a b
  | None, None => true
  | _, _ => false
  end.

Definition key_eqb (k1 k2 : row_key) : bool :=
  option_eqb (option_eqb Z.eqb) (fst k1) (fst k2)
  && option_eqb String.eqb (snd k1) (snd k2).

(** [df[~df.duplicated(subset, keep='first')]]: a row goes when an earlier
    row has its key. *)
Fixpoint keep_first (subset : list string) (seen : list row_key)
    (l : list RawSample) : list RawSample :=
  match l with
  | [] => []
  | r :: tl =>
      if existsb (key_eqb (key_of subset r)) seen
      then keep_first subset seen tl
      else r :: keep_first subset (key_of subset r :: seen) tl
  end.

Definition is_dict (l : option (dict string)) : bool :=
  match l with
  | Some _ => true
  | None => false
  end.

(** [df.drop_duplicates(subset=subset)]. An empty frame is returned as it
    is; a missing column is a [KeyError]; then every subset column is
    factorized through a hash table, which calls [hash] on each cell of an
    object column: any dict in it raises [TypeError]. *)
Definition drop_duplicates (subset : list string) (df : DataFrame) : py DataFrame :=
  if empty df then Returned df
  else
    match filter (fun c => negb (in_columns c df)) subset with
    | c :: _ => Raised (KeyError c)
    | [] =>
        if str_in "labels" subset && existsb (fun r => is_dict (labels r)) (rows df)
        then Raised (TypeError "unhashable type: 'dict'")
        else Returned (with_rows df (keep_first subset [] (rows df)))
    end.

(** ** [DataTransformer] *)

(** [lambda x: x in [0, 1]] *)
Definition validator_in_0_1 (x : value_cell) : py bool :=
  Returned match x with
           | Num q => Qeq_bool q 0 || Qeq_bool q 1
           | _ => false
           end.

(** [lambda x: x >= 0]: [nan >= 0] is false, [None >= 0] raises. *)
Definition validator_ge_0 (x : value_cell) : py bool :=
  match x with
  | Num q => Returned (Qle_bool 0 q)
  | NaN => Returned false
  | PyNone =>
      Raised (TypeError "'>=' not supported between instances of 'NoneType' and 'int'")
  end.

Definition validation_rules : list (string * (value_cell -> py bool)) :=
  [ ("up", validator_in_0_1);
    ("rate(http_requests_total[5m])", validator_ge_0);
    ("histogram_quantile(0.95, rate(http_request_duration_seconds_bucket[5m]))",
     validator_ge_0);
    (error_rate_query, validator_ge_0) ].

(** One turn of the loop over [validation_rules.items()]. *)
Definition apply_rule (rule : string * (value_cell -> py bool)) (df : DataFrame)
    : py DataFrame :=
  let mask r := String.eqb (metric_name r) (fst rule) in
  if existsb mask (rows df) then
    kept <- filterM (fun r => if mask r then snd rule (value r) else Returned true)
                    (rows df) ;;
    Returned (with_rows df kept)
  else Returned df.

Fixpoint apply_rules (rules : list (string * (value_cell -> py bool)))
    (df : DataFrame) : py DataFrame :=
  match rules with
  | [] => Returned df
  | rule :: rest => df' <- apply_rule rule df ;; apply_rules rest df'
  end.

Definition _validate_value_ranges (df : DataFrame) : py DataFrame :=
  if negb (in_columns "metric_name" df) || negb (in_columns "value" df)
  then Returned df
  else apply_rules validation_rules df.

Definition _clean_data (self : DataTransformer) (df : DataFrame) : py DataFrame :=
  let cfg := cleaning_config self in
  df <- (if get_flag (remove_nulls cfg) true then dropna_value df else Returned df) ;;
  df <- (if get_flag (validate_timestamps cfg) true
         then select_timestamp_notna df else Returned df) ;;
  let df := if in_columns "metric_name" df
            then select_metric_isin (valid_metrics self) df else df in
  df <- (if get_flag (remove_duplicates cfg) true then
           if in_columns "metric_name" df
           then drop_duplicates ["timestamp"; "metric_name"; "labels"] df
           else drop_duplicates ["timestamp"] df
         else Returned df) ;;
  df <- (if get_flag (validate_value_ranges cfg) true
         then _validate_value_ranges df else Returned df) ;;
  Returned df.

(** The loop that copies the remaining labels into the tags. The label
    values are strings, so [str(value)] is the value itself, and
    [len(str(value))] is the number of its code points. *)
Definition add_label_tags (labels : dict string) (tags : dict string) : dict string :=
  fold_left
    (fun tags kv =>
       if negb (str_in (fst kv) ["job"; "instance"])
          && (len (snd kv) <? 100)%nat
       then dict_set tags (fst kv) (snd kv)
       else tags)
    labels tags.

(** The body of the [try] in the loop of [_to_influxdb_format], for one row
    of a frame with the given columns. *)
Definition convert_row (cols : list string) (row : RawSample) : py StoragePoint.t :=
  let labels :=
    if str_in "labels" cols
    then match labels row with Some d => d | None => [] end
    else [] in
  let service := dict_get labels "job" "unknown" in
  let instance := dict_get labels "instance" "unknown" in
  let metric_name := if str_in "metric_name" cols then metric_name row else "unknown" in
  v <- (if str_in "value" cols then Returned (value row) else Raised (KeyError "value")) ;;
  ts <- (if str_in "timestamp" cols
         then Returned (timestamp row) else Raised (KeyError "timestamp")) ;;
  Returned
    {| StoragePoint.measurement := "health_metrics";
       StoragePoint.tags :=
         add_label_tags labels
           [("service", service); ("instance", instance); ("metric_type", metric_name)];
       StoragePoint.fields := [("value", v)];
       StoragePoint.timestamp := ts |}.

(** A row whose conversion raises is skipped. *)
Definition _to_influxdb_format (df : DataFrame) : list StoragePoint.t :=
  flat_map
    (fun row => match convert_row (columns df) row with
                | Returned point => [point]
                | Raised _ => []
                end)
    (rows df).

(** The [try] block of [transform]. *)
Definition transform_body (self : DataTransformer) (raw_data : list RawSample)
    : py (list StoragePoint.t) :=
  df <- _clean_data self (pd_DataFrame raw_data) ;;
  if empty df then Returned []
  else Returned (_to_influxdb_format df).

Definition transform (self : DataTransformer) (raw_data : list RawSample)
    : py (list StoragePoint.t) :=
  match raw_data with
  | [] => Returned []
  | _ => try_except (transform_body self raw_data) (fun _ => Returned [])
  end.

(** ** [ETLPipeline] *)

(** [self.stats] *)
Record Stats : Type := mkStats {
  cycles_completed : Z;
  cycles_failed : Z;
  total_data_points : Z;
  last_run_time : option Z;
  start_time : option Z
}.

(** The collaborators, as the pipeline sees them: what the next call of
    [get_basic_metrics] answers, and what [load_data] answers on a batch. *)
Record PrometheusExtractor : Type := mkExtractor {
  get_basic_metrics : py (list RawSample)
}.

Record InfluxDBLoader : Type := mkLoader {
  load_data : list StoragePoint.t -> py bool
}.

(** [self.config.get('monitoring', {})] *)
Record MonitoringConfig : Type := mkMonitoringConfig {
  enable_metrics : option bool;
  health_check_interval : option Z
}.

Record ETLPipeline : Type := mkETLPipeline {
  monitoring_config : MonitoringConfig;
  extractor : option PrometheusExtractor;
  transformer : option DataTransformer;
  loader : option InfluxDBLoader;
  running : bool;
  stats : Stats
}.

(** The statistics that [__init__] sets. *)
Definition initial_stats : Stats :=
  {| cycles_completed := 0; cycles_failed := 0; total_data_points := 0;
     last_run_time := None; start_time := None |}.

(** [ETLPipeline.__init__]: the components are set by [initialize]. *)
Definition ETLPipeline__init__ (monitoring : MonitoringConfig) : ETLPipeline :=
  {| monitoring_config := monitoring;
     extractor := None;
     transformer := None;
     loader := None;
     running := false;
     stats := initial_stats |}.

Definition set_stats (self : ETLPipeline) (s : Stats) : ETLPipeline :=
  {| monitoring_config := monitoring_config self;
     extractor := extractor self;
     transformer := transformer self;
     loader := loader self;
     running := running self;
     stats := s |}.

(** The calls that a cycle makes to its collaborators, in order. *)
Inductive call : Type :=
| Call_get_basic_metrics
| Call_transform (raw_data : list RawSample)
| Call_load_data (data : list StoragePoint.t).

(** A method of the pipeline: it may change the object, calls its
    collaborators, and returns or raises. Changes made before an exception
    stay. *)
Module Method.
Definition t (A : Type) : Type :=
  ETLPipeline * list call -> (ETLPipeline * list call) * py A.

Definition ret {A : Type} (a : A) : t A := fun s => (s, Returned a).

Definition raise {A : Type} (e : exn) : t A := fun s => (s, Raised e).

Definition bind {A B : Type} (m : t A) (k : A -> t B) : t B :=
  fun s =>
    match m s with
    | (s', Returned a) => k a s'
    | (s', Raised e) => (s', Raised e)
    end.

Definition self : t ETLPipeline := fun s => (s, Returned (fst s)).

Definition update_stats (f : Stats -> Stats) : t unit :=
  fun s => ((set_stats (fst s) (f (stats (fst s))), snd s), Returned tt).

(** A call to a collaborator, with its outcome. *)
Definition invoke {A : Type} (c : call) (outcome : py A) : t A :=
  fun s => ((fst s, snd s ++ [c]), outcome).

(** [obj.name] on an attribute that may still be [None]. *)
Definition attr {A : Type} (obj : option A) (name : string) : t A :=
  match obj with
  | Some a => ret a
  | None =>
      raise (AttributeError
               (String.append "'NoneType' object has no attribute '"
                  (String.append name "'")))
  end.

Definition try_except {A : Type} (m : t A) (handler : exn -> t A) : t A :=
  fun s =>
    match m s with
    | (s', Returned a) => (s', Returned a)
    | (s', Raised e) => handler e s'
    end.
End Method.

Notation "x <-- m ;; k" := (Method.bind m (fun x => k))
  (at level 61, m at next level, right associativity).

(** [self.stats['cycles_completed'] += 1] and the like. *)
Definition add_cycles_completed (n : Z) (s : Stats) : Stats :=
  {| cycles_completed := cycles_completed s + n;
     cycles_failed := cycles_failed s;
     total_data_points := total_data_points s;
     last_run_time := last_run_time s;
     start_time := start_time s |}.

Definition add_cycles_failed (n : Z) (s : Stats) : Stats :=
  {| cycles_completed := cycles_completed s;
     cycles_failed := cycles_failed s + n;
     total_data_points := total_data_points s;
     last_run_time := last_run_time s;
     start_time := start_time s |}.

Definition add_total_data_points (n : Z) (s : Stats) : Stats :=
  {| cycles_completed := cycles_completed s;
     cycles_failed := cycles_failed s;
     total_data_points := total_data_points s + n;
     last_run_time := last_run_time s;
     start_time := start_time s |}.

Definition set_last_run_time (t : Z) (s : Stats) : Stats :=
  {| cycles_completed := cycles_completed s;
     cycles_failed := cycles_failed s;
     total_data_points := total_data_points s;
     last_run_time := Some t;
     start_time := start_time s |}.

(** The [try] block of [run_single_cycle]. *)
Definition cycle_body (cycle_start_time : Z) : Method.t bool :=
  self <-- Method.self ;;
  ex <-- Method.attr (extractor self) "get_basic_metrics" ;;
  raw_data <-- Method.invoke Call_get_basic_metrics (get_basic_metrics ex) ;;
  match raw_data with
  | [] =>
      _ <-- Method.update_stats (add_cycles_completed 1) ;;
      _ <-- Method.update_stats (set_last_run_time cycle_start_time) ;;
      Method.ret true
  | _ =>
      tr <-- Method.attr (transformer self) "transform" ;;
      transformed_data <--
        Method.invoke (Call_transform raw_data) (transform tr raw_data) ;;
      match transformed_data with
      | [] =>
          _ <-- Method.update_stats (add_cycles_completed 1) ;;
          _ <-- Method.update_stats (set_last_run_time cycle_start_time) ;;
          Method.ret true
      | _ =>
          ld <-- Method.attr (loader self) "load_data" ;;
          success <--
            Method.invoke (Call_load_data transformed_data)
                          (load_data ld transformed_data) ;;
          if success : bool then
            _ <-- Method.update_stats (add_cycles_completed 1) ;;
            _ <-- Method.update_stats
                    (add_total_data_points (Z.of_nat (length transformed_data))) ;;
            _ <-- Method.update_stats (set_last_run_time cycle_start_time) ;;
            Method.ret true
          else
            _ <-- Method.update_stats (add_cycles_failed 1) ;;
            Method.ret false
      end
  end.

Definition run_single_cycle (cycle_start_time : Z) : Method.t bool :=
  Method.try_except (cycle_body cycle_start_time)
    (fun _ => _ <-- Method.update_stats (add_cycles_failed 1) ;; Method.ret false).

(** ** Python floats *)











(** * Definitions used in the statements *)

Inductive subseq {A : Type} : list A -> list A -> Prop :=
| subseq_nil : subseq [] []
| subseq_drop : forall x s l, subseq s l -> subseq s (x :: l)
| subseq_take : forall x s l, subseq s l -> subseq (x :: s) (x :: l).

Create HintDb rows.
#[local] Hint Constructors subseq : rows.

(** [df'] has the columns of [df] and a subsequence of its rows. *)
Definition shrinks (df' df : DataFrame) : Prop :=
  columns df' = columns df /\ subseq (rows df') (rows df).

(** The answer of a validator as a boolean; a raising validator is not
    reached in a pass that returns. *)
Definition passes (rule : string * (value_cell -> py bool)) (r : RawSample) : bool :=
  if String.eqb (metric_name r) (fst rule)
  then match snd rule (value r) with
       | Returned b => b
       | Raised _ => false
       end
  else true.

(** A row passes the rule of its metric, if there is one. *)
Definition in_range (r : RawSample) : bool :=
  forallb (fun rule => passes rule r) validation_rules.

(** A sample passes the null, timestamp and allow-list filters. *)
Definition passes_prefilters (self : DataTransformer) (r : RawSample) : bool :=
  (if get_flag (remove_nulls (cleaning_config self)) true
   then value_notna (value r) else true)
  && (if get_flag (validate_timestamps (cleaning_config self)) true
      then match timestamp r with Some _ => true | None => false end
      else true)
  && str_in (metric_name r) (valid_metrics self).

(** The subset that [_clean_data] gives to [drop_duplicates] on a frame with
    a [metric_name] column. *)
Definition dedup_subset : list string := ["timestamp"; "metric_name"; "labels"].

(** Two samples with the same timestamp, metric name and labels. *)
Definition same_key (a b : RawSample) : Prop :=
  timestamp a = timestamp b /\ metric_name a = metric_name b /\ labels a = labels b.

(** The properties of the rows [kept] that the points of a result are
    built from, among the [survivors] of the null, timestamp and allow-list
    filters. *)
Definition first_survivors (survivors kept : list RawSample) : Prop :=
  subseq kept survivors
  /\ ForallOrdPairs (fun a b => ~ same_key a b) kept
  /\ forall r, In r kept ->
       exists earlier later,
         survivors = earlier ++ r :: later
         /\ forall x, In x earlier -> ~ same_key x r.

(** The sample and the point of the end-to-end scenario. *)
Definition end_to_end_sample (T : Z) : RawSample :=
  {| timestamp := Some T;
     metric_name := "up";
     labels := Some [("job", "test-app"); ("instance", "localhost:8080")];
     value := Num 1 |}.

Definition end_to_end_point (T : Z) : StoragePoint.t :=
  {| StoragePoint.measurement := "health_metrics";
     StoragePoint.tags :=
       [("service", "test-app"); ("instance", "localhost:8080"); ("metric_type", "up")];
     StoragePoint.fields := [("value", Num 1)];
     StoragePoint.timestamp := Some T |}.

(** A transformer whose configuration turns deduplication off. *)
Definition transformer_without_dedup : DataTransformer :=
  {| valid_metrics := default_valid_metrics;
     cleaning_config :=
       {| remove_nulls := Some true;
          validate_timestamps := Some true;
          remove_duplicates := Some false;
          validate_value_ranges := Some true |} |}.

(** A sample of [up] whose [labels] entry is [None]. *)
Definition unlabelled_up (T : Z) (v : Q) : RawSample :=
  {| timestamp := Some T; metric_name := "up"; labels := None; value := Num v |}.

(** A string of [n] times the character [x]. *)
Fixpoint x_string (n : nat) : string :=
  match n with
  | O => EmptyString
  | S n' => String "x" (x_string n')
  end.

(** A pipeline whose extractor has no data. *)
Definition pipeline_without_data : ETLPipeline :=
  {| monitoring_config := {| enable_metrics := None; health_check_interval := None |};
     extractor := Some {| get_basic_metrics := Returned [] |};
     transformer := Some default_transformer;
     loader := Some {| load_data := fun _ => Returned true |};
     running := true;
     stats := initial_stats |}.

(** A pipeline whose extractor has one valid sample and whose loader
    reports failure; deduplication is off. *)
Definition pipeline_with_failing_loader : ETLPipeline :=
  {| monitoring_config := {| enable_metrics := None; health_check_interval := None |};
     extractor := Some {| get_basic_metrics := Returned [end_to_end_sample 1700000000] |};
     transformer := Some transformer_without_dedup;
     loader := Some {| load_data := fun _ => Returned false |};
     running := true;
     stats := initial_stats |}.

Definition range_sample (name : string) (v : Q) : RawSample :=
  {| timestamp := Some 1700000000; metric_name := name;
     labels := Some [("job", "test-app")]; value := Num v |}.

(** A frame with an [up] row of value 2, one of value 1, a negative request
    rate, and a row of a metric without a rule. *)
Definition range_frame : DataFrame :=
  pd_DataFrame
    [ range_sample "up" 2;
      range_sample "up" 1;
      range_sample "rate(http_requests_total[5m])" (-1);
      range_sample "http_requests_total" (-5) ].

(** The same pipeline with the default transformer. *)
Definition default_pipeline_with_failing_loader : ETLPipeline :=
  {| monitoring_config := {| enable_metrics := None; health_check_interval := None |};
     extractor := Some {| get_basic_metrics := Returned [end_to_end_sample 1700000000] |};
     transformer := Some default_transformer;
     loader := Some {| load_data := fun _ => Returned false |};
     running := true;
     stats := initial_stats |}.






(** A transformer that keeps null values and does not deduplicate, and a
    request-rate sample without a value. *)
Definition transformer_keeping_nulls : DataTransformer :=
  {| valid_metrics := default_valid_metrics;
     cleaning_config :=
       {| remove_nulls := Some false;
          validate_timestamps := Some true;
          remove_duplicates := Some false;
          validate_value_ranges := Some true |} |}.

Definition request_rate_without_value : RawSample :=
  {| timestamp := Some 1700000000;
     metric_name := "rate(http_requests_total[5m])";
     labels := Some [("job", "test-app")];
     value := PyNone |}.

(** A sample as the extractor builds them and the transformer accepts
    them: a number, a timestamp, a metric of the allow-list and a dict of
    labels. *)
Definition valid_sample (self : DataTransformer) (s : RawSample) : bool :=
  value_notna (value s)
  && match timestamp s with Some _ => true | None => false end
  && str_in (metric_name s) (valid_metrics self)
  && is_dict (labels s).

(** An [up] sample with the labels of the end-to-end scenario. *)
Definition labelled_up (T : Z) (v : Q) : RawSample :=
  {| timestamp := Some T;
     metric_name := "up";
     labels := Some [("job", "test-app"); ("instance", "localhost:8080")];
     value := Num v |}.

(** A string of [n] times the character U+00E9, two bytes in UTF-8. *)
Fixpoint e_acute_string (n : nat) : string :=
  match n with
  | O => EmptyString
  | S n' => String "195" (String "169" (e_acute_string n'))
  end.

(** * More of the transformer *)

(** The point that the loop of [_to_influxdb_format] builds from a row of a
    frame with the four columns of the samples. *)
Definition point_of (row : RawSample) : StoragePoint.t :=
  let labels := match labels row with Some d => d | None => [] end in
  {| StoragePoint.measurement := "health_metrics";
     StoragePoint.tags :=
       add_label_tags labels
         [("service", dict_get labels "job" "unknown");
          ("instance", dict_get labels "instance" "unknown");
          ("metric_type", metric_name row)];
     StoragePoint.fields := [("value", value row)];
     StoragePoint.timestamp := timestamp row |}.

(** A sample passes the three filters and, when range validation is
    enabled, the rule of its metric. *)
Definition keeps (self : DataTransformer) (s : RawSample) : bool :=
  passes_prefilters self s
  && (if get_flag (validate_value_ranges (cleaning_config self)) true
      then in_range s else true).

(** A cell of the [value] column of [pd.DataFrame(raw_data)]. *)
Definition stored_value (float_column : bool) (v : value_cell) : value_cell :=
  match v with
  | PyNone => if float_column then NaN else PyNone
  | _ => v
  end.

Definition stored_row (float_column : bool) (s : RawSample) : RawSample :=
  {| timestamp := timestamp s;
     metric_name := metric_name s;
     labels := labels s;
     value := stored_value float_column (value s) |}.

(** The tag [k] that the label loop leaves: the label of that name when
    its value is shorter than 100, else the entry [default] that the point
    starts with. *)
Definition label_or (labels : dict string) (k : string) (default : option string)
    : option string :=
  match dict_lookup labels k with
  | Some v => if (len v <? 100)%nat then Some v else default
  | None => default
  end.

(** A sample with labels named as the tags that every point has. *)
Definition sample_with_tag_labels : RawSample :=
  {| timestamp := Some 1700000000;
     metric_name := "up";
     labels := Some [("job", "api"); ("service", "billing");
                     ("metric_type", x_string 100); ("team", "core")];
     value := Num 1 |}.

(** * The loader *)

(** [range(0, stop, step)]; a step of zero raises [ValueError]. *)
Definition py_range (stop step : Z) : option (list Z) :=
  if (step =? 0)%Z then None
  else
    let count :=
      (if step >? 0
       then (if stop >? 0 then (stop + step - 1) / step else 0)
       else (if stop <? 0 then (- stop + - step - 1) / - step else 0))%Z in
    Some (map (fun k => Z.of_nat k * step) (seq 0 (Z.to_nat count))).

(** [data[i:j]] for [0 <= i <= j], the only slices that the loader takes. *)
Definition slice {A : Type} (data : list A) (i j : Z) : list A :=
  firstn (Z.to_nat (j - i)) (skipn (Z.to_nat i) data).

Module Loader.

(** What [load_data] reads of an [InfluxDBLoader]: the batch size of the
    configuration, and whether the client has been set up. *)
Record t : Type := mk {
  batch_size : Z;
  client : bool
}.

Section LoadData.
Variables Item Point : Type.

(** The body of the inner [try] of [load_data]: the point of an item, [None]
    when building it raises. *)
Variable make_point : Item -> option Point.

(** Whether [_initialize_client] succeeds. *)
Variable initialize_client : bool.

(** Whether [write_api.write] returns on a batch (it raises otherwise),
    given the batches written before. *)
Variable write : list (list Point) -> list Point -> bool.

Definition points_of (batch : list Item) : list Point :=
  flat_map (fun item => match make_point item with
                        | Some point => [point]
                        | None => []
                        end) batch.

(** The loop over the batches: the batches written so far and
    [total_loaded], [None] when a write raised. *)
Fixpoint write_batches (batches : list (list Item)) (written : list (list Point))
    (total_loaded : Z) : list (list Point) * option Z :=
  match batches with
  | [] => (written, Some total_loaded)
  | batch :: rest =>
      match points_of batch with
      | [] => write_batches rest written total_loaded
      | points =>
          if write written points
          then write_batches rest (written ++ [points])
                 (total_loaded + Z.of_nat (length points))
          else (written, None)
      end
  end.

(** [load_data]: the loader afterwards, the batches written, the answer. *)
Definition load_data (self : t) (data : list Item) : t * list (list Point) * bool :=
  match data with
  | [] => (self, [], true)
  | _ =>
      if negb (client self) && negb initialize_client then (self, [], false)
      else
        let self := {| batch_size := batch_size self; client := true |} in
        match py_range (Z.of_nat (length data)) (batch_size self) with
        | None => (self, [], false)
        | Some starts =>
            let batches := map (fun i => slice data i (i + batch_size self)) starts in
            match write_batches batches [] 0 with
            | (written, Some total_loaded) =>
                (self, written, (total_loaded >? 0)%Z)
            | (written, None) => (self, written, false)
            end
        end
  end.
End LoadData.

End Loader.

(** A loader with batches of two points and no client yet, and five points. *)
Definition loader_of_two : Loader.t :=
  {| Loader.batch_size := 2; Loader.client := false |}.

Definition five_points : list StoragePoint.t :=
  map end_to_end_point [1700000000; 1700000015; 1700000030; 1700000045; 1700000060].

(** ** The items that the loader validates *)

(** The Python values that an item can hold under its keys. *)
#[warnings="-register-all"] Inductive pyval : Type :=
| PNone
| PBool (b : bool)
| PInt (z : Z)
| PFloat (q : Q)
| PNaN
| PStr (s : string)
| PDatetime (seconds : Z)
| PDict (d : list (string * pyval)).

Definition pyval_of_value (v : value_cell) : pyval :=
  match v with
  | PyNone => PNone
  | NaN => PNaN
  | Num q => PFloat q
  end.

(** The dict that [_to_influxdb_format] builds, of which [StoragePoint.t]
    is the record: a [timestamp] is a [datetime], or [None]. *)
Definition item_of_point (point : StoragePoint.t) : dict pyval :=
  [ ("measurement", PStr (StoragePoint.measurement point));
    ("tags", PDict (map (fun kv => (fst kv, PStr (snd kv))) (StoragePoint.tags point)));
    ("fields",
     PDict (map (fun kv => (fst kv, pyval_of_value (snd kv)))
                (StoragePoint.fields point)));
    ("timestamp",
     match StoragePoint.timestamp point with
     | Some seconds => PDatetime seconds
     | None => PNone
     end) ].

(** [isinstance(x, str)], [isinstance(x, dict)] and
    [isinstance(x, (str, int, float))]; a [bool] is an [int]. *)
Definition is_str (x : pyval) : bool :=
  match x with PStr _ => true | _ => false end.

Definition is_dict_value (x : pyval) : bool :=
  match x with PDict _ => true | _ => false end.

Definition is_str_int_float (x : pyval) : bool :=
  match x with
  | PStr _ | PInt _ | PBool _ | PFloat _ | PNaN => true
  | _ => false
  end.

(** The truth value of a Python value. *)
Definition truthy (x : pyval) : bool :=
  match x with
  | PNone => false
  | PBool b => b
  | PInt z => negb (z =? 0)%Z
  | PFloat q => negb (Qeq_bool q 0)
  | PNaN => true
  | PStr s => negb (String.eqb s "")
  | PDatetime _ => true
  | PDict d => match d with [] => false | _ => true end
  end.

(** The loop of [validate_data_format] over the items. *)
Fixpoint validate_items (data : list (dict pyval)) : bool :=
  match data with
  | [] => true
  | item :: rest =>
      match dict_lookup item "measurement", dict_lookup item "fields",
            dict_lookup item "timestamp" with
      | Some measurement, Some fields, Some timestamp =>
          if negb (is_str measurement) || negb (truthy measurement) then false
          else if negb (is_dict_value fields) || negb (truthy fields) then false
          else if negb (is_str_int_float timestamp) then false
          else validate_items rest
      | _, _, _ => false
      end
  end.

Definition validate_data_format (data : list (dict pyval)) : bool :=
  match data with
  | [] => true
  | _ => validate_items data
  end.

(** The item of a point, with the number of seconds in the place of the
    [datetime]. *)
Definition item_with_epoch_seconds (point : StoragePoint.t) : dict pyval :=
  dict_set (item_of_point point) "timestamp"
    (PInt match StoragePoint.timestamp point with
          | Some seconds => seconds
          | None => 0
          end).

(** * The extractor *)

Module Extractor.

(** What one turn of the retry loop of [extract_metrics] meets: a response
    with the status [success], parsed into samples; a response with another
    status; or an exception (of the request, of the decoding, of the
    parsing). *)
Inductive attempt : Type :=
| Success (result : list RawSample)
| QueryFailed (error_msg : string)
| RequestFailed.

(** The loop [for attempt in range(self.retry_attempts)], from the turn
    [attempt] on, with [remaining] turns left: the result and the number of
    requests made. A failed query raises on the last turn, inside the [try],
    and the handler then returns the empty list as for a failed request. *)
Fixpoint retry_loop (retry_attempts : Z) (responses : nat -> attempt)
    (attempt remaining : nat) : list RawSample * nat :=
  match remaining with
  | O => ([], attempt)
  | S remaining' =>
      match responses attempt with
      | Success result => (result, S attempt)
      | QueryFailed _ | RequestFailed =>
          if (Z.of_nat attempt =? retry_attempts - 1)%Z
          then ([], S attempt)
          else retry_loop retry_attempts responses (S attempt) remaining'
      end
  end.

Definition extract_metrics (retry_attempts : Z) (responses : nat -> attempt)
    : list RawSample * nat :=
  retry_loop retry_attempts responses 0 (Z.to_nat retry_attempts).

(** The queries of [get_basic_metrics]. *)
Definition queries : list string :=
  [ String.append "up{job=" (String.append dquote (String.append "test-app" (String.append dquote "}")));
    "rate(http_requests_total[5m])";
    "histogram_quantile(0.95, rate(http_request_duration_seconds_bucket[5m]))";
    error_rate_query ].

(** [get_basic_metrics], given what the requests of each query meet: the
    samples and the number of requests made. *)
Definition get_basic_metrics (retry_attempts : Z) (http : string -> nat -> attempt)
    : list RawSample * nat :=
  fold_left
    (fun acc query =>
       let '(metrics, requests) := extract_metrics retry_attempts (http query) in
       (fst acc ++ metrics, (snd acc + requests)%nat))
    queries ([], O).

End Extractor.

(** The extractor as the pipeline sees it. *)
Definition extractor_of (retry_attempts : Z) (http : string -> nat -> Extractor.attempt)
    : PrometheusExtractor :=
  {| get_basic_metrics := Returned (fst (Extractor.get_basic_metrics retry_attempts http)) |}.

Definition failed (a : Extractor.attempt) : Prop :=
  match a with
  | Extractor.Success _ => False
  | _ => True
  end.

(** A pipeline whose extractor makes three attempts and meets a failed
    request each time. *)
Definition pipeline_with_prometheus_down : ETLPipeline :=
  {| monitoring_config := {| enable_metrics := None; health_check_interval := None |};
     extractor := Some (extractor_of 3 (fun _ _ => Extractor.RequestFailed));
     transformer := Some default_transformer;
     loader := Some {| load_data := fun _ => Returned true |};
     running := true;
     stats := initial_stats |}.

(** * The loop of the pipeline *)

















(** * Properties *)

(** ** Outcomes *)

Lemma bind_Returned {A B : Type} (m : py A) (k : A -> py B) (b : B) :
  bind m k = Returned b -> exists a, m = Returned a /\ k a = Returned b.
Proof.
  destruct m as [a | e]; simpl; intros H.
  - exists a. split; [reflexivity | exact H].
  - discriminate H.
Qed.

(** ** Subsequences: what a pass that only removes rows leaves *)

Section Subseq.
Context {A : Type}.

Lemma subseq_refl (l : list A) : subseq l l.
Proof. induction l; auto with rows. Qed.

Lemma subseq_empty (l : list A) : subseq [] l.
Proof. induction l; auto with rows. Qed.

Lemma subseq_trans (s m l : list A) : subseq s m -> subseq m l -> subseq s l.
Proof.
  intros Hsm Hml. revert s Hsm.
  induction Hml as [| x m l Hml IH | x m l Hml IH]; intros s Hsm.
  - exact Hsm.
  - apply subseq_drop, IH, Hsm.
  - inversion Hsm; subst.
    + apply subseq_drop, IH. assumption.
    + apply subseq_take, IH. assumption.
Qed.

Lemma subseq_length (s l : list A) : subseq s l -> (length s <= length l)%nat.
Proof. induction 1; simpl; lia. Qed.

Lemma subseq_In (s l : list A) (x : A) : subseq s l -> In x s -> In x l.
Proof.
  induction 1 as [| y s l _ IH | y s l _ IH]; simpl; intros Hx.
  - exact Hx.
  - right. apply IH, Hx.
  - destruct Hx as [-> | Hx]; [left; reflexivity | right; apply IH, Hx].
Qed.

Lemma subseq_filter (f : A -> bool) (l : list A) : subseq (filter f l) l.
Proof.
  induction l as [| x l IH]; simpl.
  - constructor.
  - destruct (f x); auto with rows.
Qed.

Lemma subseq_nil_inv (s : list A) : subseq s [] -> s = [].
Proof. inversion 1; reflexivity. Qed.

Lemma filterM_subseq (f : A -> py bool) (l kept : list A) :
  filterM f l = Returned kept -> subseq kept l.
Proof.
  revert kept. induction l as [| x l IH]; simpl; intros kept H.
  - injection H as <-. constructor.
  - apply bind_Returned in H as (b & _ & H).
    apply bind_Returned in H as (rest & Hrest & H).
    injection H as <-.
    destruct b; auto with rows.
Qed.

(** When the predicate never raises, [filterM] is [filter]. *)
Lemma filterM_filter (f : A -> py bool) (g : A -> bool) (l : list A) :
  (forall x, In x l -> f x = Returned (g x)) ->
  filterM f l = Returned (filter g l).
Proof.
  induction l as [| x l IH]; simpl; intros Hf.
  - reflexivity.
  - rewrite (Hf x (or_introl eq_refl)). simpl.
    rewrite IH by (intros y Hy; apply Hf; right; exact Hy). simpl.
    destruct (g x); reflexivity.
Qed.
End Subseq.

(** ** The passes of [_clean_data] keep the columns and only remove rows *)

Lemma shrinks_refl (df : DataFrame) : shrinks df df.
Proof. split; [reflexivity | apply subseq_refl]. Qed.

Lemma shrinks_trans (a b c : DataFrame) : shrinks a b -> shrinks b c -> shrinks a c.
Proof.
  intros [Hc1 Hr1] [Hc2 Hr2]. split.
  - congruence.
  - eapply subseq_trans; eassumption.
Qed.

Lemma shrinks_with_rows (df : DataFrame) (rs : list RawSample) :
  subseq rs (rows df) -> shrinks (with_rows df rs) df.
Proof. intros H. split; [reflexivity | exact H]. Qed.

#[local] Hint Resolve shrinks_refl shrinks_with_rows subseq_filter : rows.

Lemma dropna_value_shrinks (df df' : DataFrame) :
  dropna_value df = Returned df' -> shrinks df' df.
Proof.
  unfold dropna_value, require_column.
  destruct (in_columns "value" df); simpl; intros H; [| discriminate H].
  injection H as <-. auto with rows.
Qed.

Lemma select_timestamp_notna_shrinks (df df' : DataFrame) :
  select_timestamp_notna df = Returned df' -> shrinks df' df.
Proof.
  unfold select_timestamp_notna, require_column.
  destruct (in_columns "timestamp" df); simpl; intros H; [| discriminate H].
  injection H as <-. auto with rows.
Qed.

Lemma select_metric_isin_shrinks (valid : list string) (df : DataFrame) :
  shrinks (select_metric_isin valid df) df.
Proof. unfold select_metric_isin. auto with rows. Qed.

Lemma keep_first_subseq (subset : list string) (l : list RawSample) :
  forall seen, subseq (keep_first subset seen l) l.
Proof.
  induction l as [| r l IH]; simpl; intros seen.
  - constructor.
  - destruct (existsb _ seen); auto with rows.
Qed.

Lemma drop_duplicates_shrinks (subset : list string) (df df' : DataFrame) :
  drop_duplicates subset df = Returned df' -> shrinks df' df.
Proof.
  unfold drop_duplicates.
  destruct (empty df).
  - intros H. injection H as <-. apply shrinks_refl.
  - destruct (filter _ subset); [| discriminate].
    destruct (_ && _); [discriminate |].
    intros H. injection H as <-.
    apply shrinks_with_rows, keep_first_subseq.
Qed.

Lemma apply_rule_shrinks (rule : string * (value_cell -> py bool)) (df df' : DataFrame) :
  apply_rule rule df = Returned df' -> shrinks df' df.
Proof.
  unfold apply_rule.
  destruct (existsb _ (rows df)).
  - intros H. apply bind_Returned in H as (kept & Hkept & H).
    injection H as <-.
    apply shrinks_with_rows. eapply filterM_subseq, Hkept.
  - intros H. injection H as <-. apply shrinks_refl.
Qed.

Lemma apply_rules_shrinks (rules : list (string * (value_cell -> py bool))) :
  forall df df', apply_rules rules df = Returned df' -> shrinks df' df.
Proof.
  induction rules as [| rule rules IH]; simpl; intros df df' H.
  - injection H as <-. apply shrinks_refl.
  - apply bind_Returned in H as (df1 & H1 & H).
    eapply shrinks_trans; [eapply IH, H | eapply apply_rule_shrinks, H1].
Qed.

Lemma _validate_value_ranges_shrinks (df df' : DataFrame) :
  _validate_value_ranges df = Returned df' -> shrinks df' df.
Proof.
  unfold _validate_value_ranges.
  destruct (_ || _).
  - intros H. injection H as <-. apply shrinks_refl.
  - apply apply_rules_shrinks.
Qed.

Lemma _clean_data_shrinks (self : DataTransformer) (df df' : DataFrame) :
  _clean_data self df = Returned df' -> shrinks df' df.
Proof.
  unfold _clean_data. intros H.
  apply bind_Returned in H as (df1 & H1 & H).
  apply bind_Returned in H as (df2 & H2 & H).
  apply bind_Returned in H as (df4 & H4 & H).
  apply bind_Returned in H as (df5 & H5 & H).
  injection H as <-.
  assert (S1 : shrinks df1 df).
  { destruct (get_flag (remove_nulls _) true).
    - apply dropna_value_shrinks, H1.
    - injection H1 as <-. apply shrinks_refl. }
  assert (S2 : shrinks df2 df1).
  { destruct (get_flag (validate_timestamps _) true).
    - apply select_timestamp_notna_shrinks, H2.
    - injection H2 as <-. apply shrinks_refl. }
  set (df3 := if in_columns "metric_name" df2
              then select_metric_isin (valid_metrics self) df2 else df2) in *.
  assert (S3 : shrinks df3 df2).
  { unfold df3. destruct (in_columns "metric_name" df2).
    - apply select_metric_isin_shrinks.
    - apply shrinks_refl. }
  assert (S4 : shrinks df4 df3).
  { destruct (get_flag (remove_duplicates _) true).
    - destruct (in_columns "metric_name" df3);
        eapply drop_duplicates_shrinks, H4.
    - injection H4 as <-. apply shrinks_refl. }
  assert (S5 : shrinks df5 df4).
  { destruct (get_flag (validate_value_ranges _) true).
    - apply _validate_value_ranges_shrinks, H5.
    - injection H5 as <-. apply shrinks_refl. }
  eauto using shrinks_trans.
Qed.

Lemma _to_influxdb_format_length (df : DataFrame) :
  (length (_to_influxdb_format df) <= length (rows df))%nat.
Proof.
  unfold _to_influxdb_format.
  induction (rows df) as [| r l IH]; simpl.
  - lia.
  - rewrite length_app.
    destruct (convert_row (columns df) r); simpl; lia.
Qed.

Lemma pd_DataFrame_length (raw_data : list RawSample) :
  length (rows (pd_DataFrame raw_data)) = length raw_data.
Proof. unfold pd_DataFrame. simpl. apply length_map. Qed.

(** ** [transform]: termination, size, failure *)

Lemma transform_body_length (self : DataTransformer) (raw_data : list RawSample)
    (out : list StoragePoint.t) :
  transform_body self raw_data = Returned out ->
  (length out <= length raw_data)%nat.
Proof.
  unfold transform_body. intros H.
  apply bind_Returned in H as (df & Hclean & H).
  apply _clean_data_shrinks in Hclean as [_ Hrows].
  apply subseq_length in Hrows. rewrite pd_DataFrame_length in Hrows.
  destruct (empty df); injection H as <-.
  - simpl. lia.
  - pose proof (_to_influxdb_format_length df). lia.
Qed.

(** Outside of its [try] block [transform] adds nothing to a result. *)
Lemma transform_of_body_Returned (self : DataTransformer) (raw_data : list RawSample)
    (out : list StoragePoint.t) :
  transform_body self raw_data = Returned out ->
  transform self raw_data = Returned out.
Proof.
  intros Hbody. unfold transform, try_except. rewrite Hbody.
  destruct raw_data; [| reflexivity].
  apply transform_body_length in Hbody.
  destruct out; [reflexivity | simpl in Hbody; lia].
Qed.

Lemma transform_of_body_Raised (self : DataTransformer) (raw_data : list RawSample)
    (e : exn) :
  transform_body self raw_data = Raised e ->
  transform self raw_data = Returned [].
Proof.
  intros Hbody. unfold transform, try_except. rewrite Hbody.
  destruct raw_data; reflexivity.
Qed.

(** C2. For every list of samples [transform] returns (it raises nothing),
    its result is no longer than its input, and the empty input gives the
    empty result. *)
Theorem transform_returns_bounded (self : DataTransformer) (raw_data : list RawSample) :
  (exists out, transform self raw_data = Returned out
               /\ (length out <= length raw_data)%nat)
  /\ transform self [] = Returned [].
Proof.
  split; [| reflexivity].
  destruct (transform_body self raw_data) as [out | e] eqn:Hbody.
  - exists out. split.
    + apply transform_of_body_Returned, Hbody.
    + apply (transform_body_length self), Hbody.
  - exists []. split.
    + eapply transform_of_body_Raised, Hbody.
    + simpl. lia.
Qed.

(** C10. Whenever [_clean_data] raises, or the [try] block of [transform]
    raises at all (in cleaning or in conversion, outside the loop over the
    rows, which skips the row it fails on), [transform] returns the empty
    list: the whole batch is lost. *)
Theorem transform_exception_discards_batch (self : DataTransformer)
    (raw_data : list RawSample) (e : exn) :
  _clean_data self (pd_DataFrame raw_data) = Raised e
  \/ transform_body self raw_data = Raised e ->
  transform self raw_data = Returned [].
Proof.
  intros Hraised.
  assert (Hbody : transform_body self raw_data = Raised e).
  { destruct Hraised as [Hclean | Hbody]; [| exact Hbody].
    unfold transform_body. rewrite Hclean. reflexivity. }
  unfold transform.
  destruct raw_data as [| s raw_data]; [reflexivity |].
  rewrite Hbody. unfold try_except. reflexivity.
Qed.

Lemma str_in_In (s : string) (l : list string) : str_in s l = true <-> In s l.
Proof.
  unfold str_in. rewrite existsb_exists. split.
  - intros (x & Hx & Heq). apply String.eqb_eq in Heq. subst. exact Hx.
  - intros H. exists s. split; [exact H | apply String.eqb_refl].
Qed.

(** ** The rules of range validation *)

Lemma with_rows_same (df : DataFrame) : with_rows df (rows df) = df.
Proof. destruct df; reflexivity. Qed.

Lemma filterM_Returned_filter {A : Type} (f : A -> py bool) (l kept : list A) :
  filterM f l = Returned kept ->
  kept = filter (fun x => match f x with Returned b => b | Raised _ => false end) l.
Proof.
  revert kept. induction l as [| x l IH]; simpl; intros kept H.
  - injection H as <-. reflexivity.
  - apply bind_Returned in H as (b & Hb & H).
    apply bind_Returned in H as (rest & Hrest & H).
    injection H as <-. rewrite Hb, (IH rest Hrest).
    destruct b; reflexivity.
Qed.

Lemma filter_all_true {A : Type} (f : A -> bool) (l : list A) :
  (forall x, In x l -> f x = true) -> filter f l = l.
Proof.
  induction l as [| x l IH]; simpl; intros H.
  - reflexivity.
  - rewrite (H x (or_introl eq_refl)), IH; [reflexivity |].
    intros y Hy. apply H. right. exact Hy.
Qed.

Lemma filter_filter {A : Type} (f g : A -> bool) (l : list A) :
  filter g (filter f l) = filter (fun x => f x && g x) l.
Proof.
  induction l as [| x l IH]; simpl; [reflexivity |].
  destruct (f x); simpl; [destruct (g x) |]; rewrite IH; reflexivity.
Qed.

Lemma apply_rule_Returned (rule : string * (value_cell -> py bool)) (df df' : DataFrame) :
  apply_rule rule df = Returned df' ->
  df' = with_rows df (filter (passes rule) (rows df)).
Proof.
  unfold apply_rule.
  destruct (existsb _ (rows df)) eqn:Hany.
  - intros H. apply bind_Returned in H as (kept & Hkept & H).
    injection H as <-. f_equal.
    rewrite (filterM_Returned_filter _ _ _ Hkept).
    apply filter_ext. intros r. unfold passes.
    destruct (String.eqb (metric_name r) (fst rule)); reflexivity.
  - intros H. injection H as <-.
    rewrite filter_all_true; [symmetry; apply with_rows_same |].
    intros r Hr. unfold passes.
    destruct (String.eqb (metric_name r) (fst rule)) eqn:Hm; [| reflexivity].
    assert (existsb (fun r0 => String.eqb (metric_name r0) (fst rule)) (rows df) = true)
      by (apply existsb_exists; exists r; split; assumption).
    congruence.
Qed.

Lemma apply_rules_Returned (rules : list (string * (value_cell -> py bool))) :
  forall df df',
    apply_rules rules df = Returned df' ->
    df' = with_rows df
            (filter (fun r => forallb (fun rule => passes rule r) rules) (rows df)).
Proof.
  induction rules as [| rule rules IH]; simpl; intros df df' H.
  - injection H as <-. rewrite filter_all_true by reflexivity.
    symmetry. apply with_rows_same.
  - apply bind_Returned in H as (df1 & H1 & H).
    apply apply_rule_Returned in H1. apply IH in H. subst df1.
    rewrite H. unfold with_rows. simpl. f_equal. apply filter_filter.
Qed.

Lemma passes_unregistered (rules : list (string * (value_cell -> py bool))) (r : RawSample) :
  ~ In (metric_name r) (map fst rules) ->
  forallb (fun rule => passes rule r) rules = true.
Proof.
  induction rules as [| rule rules IH]; simpl; intros Hnot.
  - reflexivity.
  - apply andb_true_intro. split.
    + unfold passes.
      destruct (String.eqb (metric_name r) (fst rule)) eqn:Heq; [| reflexivity].
      apply String.eqb_eq in Heq. exfalso. apply Hnot. left. symmetry. exact Heq.
    + apply IH. intros Hin. apply Hnot. right. exact Hin.
Qed.

(** With distinct rule names, the rule registered for the metric of a row
    decides alone. *)
Lemma passes_registered (rules : list (string * (value_cell -> py bool)))
    (name : string) (validator : value_cell -> py bool) (r : RawSample) :
  NoDup (map fst rules) ->
  In (name, validator) rules ->
  metric_name r = name ->
  forallb (fun rule => passes rule r) rules
  = match validator (value r) with
    | Returned b => b
    | Raised _ => false
    end.
Proof.
  intros Hnodup Hin Hname.
  induction rules as [| rule rules IH]; simpl in *; [contradiction |].
  inversion Hnodup as [| x xs Hfresh Hrest]; subst x xs.
  destruct Hin as [-> | Hin].
  - simpl in Hfresh. rewrite passes_unregistered by (rewrite Hname; exact Hfresh).
    unfold passes. simpl. rewrite Hname, String.eqb_refl.
    apply andb_true_r.
  - rewrite (IH Hrest Hin).
    assert (Hne : String.eqb (metric_name r) (fst rule) = false).
    { apply String.eqb_neq. intros Heq. apply Hfresh.
      rewrite <- Heq, Hname. apply (in_map fst _ _ Hin). }
    unfold passes at 1. rewrite Hne. reflexivity.
Qed.

Lemma validation_rule_names_distinct : NoDup (map fst validation_rules).
Proof.
  vm_compute. repeat constructor; simpl; intuition discriminate.
Qed.

Lemma filterM_total {A : Type} (f : A -> py bool) (l : list A) :
  (forall x, In x l -> exists b, f x = Returned b) ->
  exists kept, filterM f l = Returned kept.
Proof.
  induction l as [| x l IH]; simpl; intros Hf.
  - eexists. reflexivity.
  - destruct (Hf x (or_introl eq_refl)) as [b ->].
    destruct IH as [rest ->]; [intros y Hy; apply Hf; right; exact Hy |].
    simpl. eexists. reflexivity.
Qed.

Lemma apply_rules_total (rules : list (string * (value_cell -> py bool))) :
  forall df,
    (forall rule r, In rule rules -> In r (rows df) ->
                    exists b, snd rule (value r) = Returned b) ->
    exists df', apply_rules rules df = Returned df'.
Proof.
  induction rules as [| rule rules IH]; simpl; intros df Hok.
  - eexists. reflexivity.
  - assert (H1 : exists df1, apply_rule rule df = Returned df1).
    { unfold apply_rule. destruct (existsb _ (rows df)); [| eexists; reflexivity].
      destruct (filterM_total
                  (fun r => if String.eqb (metric_name r) (fst rule)
                            then snd rule (value r) else Returned true)
                  (rows df)) as [kept ->].
      - intros r Hr. destruct (String.eqb _ _); [| eexists; reflexivity].
        apply Hok; [left; reflexivity | exact Hr].
      - simpl. eexists. reflexivity. }
    destruct H1 as [df1 H1]. rewrite H1. simpl.
    apply IH. intros rule' r Hrule Hr. apply Hok; [right; exact Hrule |].
    apply apply_rule_shrinks in H1 as [_ Hsub].
    eapply subseq_In; eassumption.
Qed.

Lemma validators_total (rule : string * (value_cell -> py bool)) (v : value_cell) :
  In rule validation_rules -> v <> PyNone -> exists b, snd rule v = Returned b.
Proof.
  intros Hrule Hv. simpl in Hrule.
  destruct Hrule as [<- | [<- | [<- | [<- | []]]]]; simpl;
    destruct v; try congruence; eexists; reflexivity.
Qed.

Lemma in_range_up (r : RawSample) (q : Q) :
  metric_name r = "up" ->
  value r = Num q ->
  in_range r = Qeq_bool q 0 || Qeq_bool q 1.
Proof.
  intros Hm Hv. unfold in_range.
  rewrite (passes_registered _ "up" validator_in_0_1 r
             validation_rule_names_distinct); [| left; reflexivity | exact Hm].
  rewrite Hv. reflexivity.
Qed.

Lemma in_range_ge_0 (r : RawSample) (q : Q) :
  In (metric_name r)
     [ "rate(http_requests_total[5m])";
       "histogram_quantile(0.95, rate(http_request_duration_seconds_bucket[5m]))";
       error_rate_query ] ->
  value r = Num q ->
  in_range r = Qle_bool 0 q.
Proof.
  intros Hm Hv. unfold in_range.
  rewrite (passes_registered _ (metric_name r) validator_ge_0 r
             validation_rule_names_distinct); [| | reflexivity].
  - rewrite Hv. reflexivity.
  - simpl in Hm. simpl.
    destruct Hm as [<- | [<- | [<- | []]]]; auto.
Qed.

(** ** Reshape: the tags of a point *)

Lemma dict_lookup_set_same {V : Type} (d : dict V) (k : string) (v : V) :
  dict_lookup (dict_set d k v) k = Some v.
Proof.
  induction d as [| [k' v'] d IH]; simpl.
  - rewrite String.eqb_refl. reflexivity.
  - destruct (String.eqb k' k) eqn:Heq; simpl; rewrite Heq; [reflexivity | exact IH].
Qed.

Lemma dict_lookup_set_other {V : Type} (d : dict V) (k k' : string) (v : V) :
  k <> k' -> dict_lookup (dict_set d k v) k' = dict_lookup d k'.
Proof.
  intros Hne. induction d as [| [k0 v0] d IH]; simpl.
  - apply String.eqb_neq in Hne. rewrite Hne. reflexivity.
  - destruct (String.eqb k0 k) eqn:Heq; simpl.
    + apply String.eqb_eq in Heq. subst k0.
      apply String.eqb_neq in Hne. rewrite Hne. reflexivity.
    + rewrite IH. reflexivity.
Qed.

Lemma dict_lookup_without {V : Type} (l1 l2 : dict V) (k k' : string) (v : V) :
  k <> k' ->
  dict_lookup (l1 ++ (k, v) :: l2) k' = dict_lookup (l1 ++ l2) k'.
Proof.
  intros Hne. induction l1 as [| [k0 v0] l1 IH]; simpl.
  - apply String.eqb_neq in Hne. rewrite Hne. reflexivity.
  - rewrite IH. reflexivity.
Qed.

(** The labels after [k] do not touch the tag [k] when they have other keys. *)
Lemma add_label_tags_keeps (labels : dict string) (k : string) :
  ~ In k (map fst labels) ->
  forall tags, dict_lookup (add_label_tags labels tags) k = dict_lookup tags k.
Proof.
  unfold add_label_tags.
  induction labels as [| [k' v'] labels IH]; simpl; intros Hfresh tags.
  - reflexivity.
  - rewrite IH by tauto.
    destruct (_ && _); [| reflexivity].
    apply dict_lookup_set_other. tauto.
Qed.

Lemma add_label_tags_app (l1 l2 : dict string) (tags : dict string) :
  add_label_tags (l1 ++ l2) tags = add_label_tags l2 (add_label_tags l1 tags).
Proof. unfold add_label_tags. apply fold_left_app. Qed.

Lemma add_label_tags_long (k v : string) (after tags : dict string) :
  (100 <= len v)%nat ->
  add_label_tags ((k, v) :: after) tags = add_label_tags after tags.
Proof.
  intros Hlong. unfold add_label_tags. simpl.
  replace (len v <? 100)%nat with false
    by (symmetry; apply Nat.ltb_ge; exact Hlong).
  rewrite andb_false_r. reflexivity.
Qed.

Lemma add_label_tags_short (k v : string) (after tags : dict string) :
  str_in k ["job"; "instance"] = false ->
  (len v < 100)%nat ->
  add_label_tags ((k, v) :: after) tags = add_label_tags after (dict_set tags k v).
Proof.
  intros Hkey Hshort. unfold add_label_tags. cbn [fold_left fst snd].
  rewrite Hkey.
  replace (len v <? 100)%nat with true
    by (symmetry; apply Nat.ltb_lt; exact Hshort).
  reflexivity.
Qed.

Lemma not_job_instance (k : string) :
  str_in k ["job"; "instance"] = false -> k <> "job" /\ k <> "instance".
Proof.
  unfold str_in. simpl. intros H.
  apply orb_false_iff in H as [Hjob H].
  apply orb_false_iff in H as [Hinst _].
  split; apply String.eqb_neq; assumption.
Qed.

(** C6. Reshape of a row whose labels hold [k -> v], with [k] neither [job]
    nor [instance]. When [v] has 100 characters (code points) or more, the
    point is the one that the row gives without that label (nothing of [v]
    is kept, not a truncation either), and no tag [k] exists unless [k] names
    one of the tags [service] and [metric_type] that every point has. When
    [v] is shorter, the point has the tag [k] with value [v]. *)
Theorem label_cardinality_guard (ts : option Z) (name : string) (x : value_cell)
    (before after : dict string) (k v : string) :
  let row := fun lbls =>
    {| timestamp := ts; metric_name := name; labels := Some lbls; value := x |} in
  let reshape := fun lbls =>
    _to_influxdb_format {| columns := sample_keys; rows := [row lbls] |} in
  str_in k ["job"; "instance"] = false ->
  NoDup (map fst (before ++ (k, v) :: after)) ->
  ((100 <= len v)%nat ->
   reshape (before ++ (k, v) :: after) = reshape (before ++ after)
   /\ exists point,
        reshape (before ++ (k, v) :: after) = [point]
        /\ (k <> "service" -> k <> "metric_type" ->
            dict_lookup (StoragePoint.tags point) k = None))
  /\ ((len v < 100)%nat ->
      exists point,
        reshape (before ++ (k, v) :: after) = [point]
        /\ dict_lookup (StoragePoint.tags point) k = Some v).
Proof.
  intros row reshape Hkey Hnodup.
  destruct (not_job_instance k Hkey) as [Hjob Hinst].
  assert (Hfresh : ~ In k (map fst before) /\ ~ In k (map fst after)).
  { rewrite map_app in Hnodup. simpl in Hnodup.
    apply NoDup_remove_2 in Hnodup. rewrite in_app_iff in Hnodup. tauto. }
  destruct Hfresh as [Hbefore Hafter].
  unfold reshape, _to_influxdb_format, convert_row, dict_get. simpl.
  rewrite !(dict_lookup_without before after k _ v) by assumption.
  split.
  - intros Hlong.
    assert (Htags : forall tags,
               add_label_tags (before ++ (k, v) :: after) tags
               = add_label_tags (before ++ after) tags).
    { intros tags. rewrite !add_label_tags_app.
      apply add_label_tags_long, Hlong. }
    rewrite Htags. split; [reflexivity |].
    eexists. split; [reflexivity |]. simpl.
    intros Hservice Htype.
    rewrite add_label_tags_app, !add_label_tags_keeps by assumption.
    cbn [dict_lookup].
    apply not_eq_sym, String.eqb_neq in Hservice, Hinst, Htype.
    rewrite Hservice, Hinst, Htype. reflexivity.
  - intros Hshort.
    eexists. split; [reflexivity |]. simpl.
    rewrite add_label_tags_app, add_label_tags_short by assumption.
    rewrite add_label_tags_keeps by assumption.
    apply dict_lookup_set_same.
Qed.

(** ** The stages of [_clean_data] on the frame of the samples *)

Lemma in_columns_sample_keys (df : DataFrame) (c : string) :
  columns df = sample_keys -> In c sample_keys -> in_columns c df = true.
Proof.
  intros Hcols Hc. unfold in_columns. rewrite Hcols. apply str_in_In, Hc.
Qed.

Lemma dropna_value_Returned (df : DataFrame) :
  columns df = sample_keys ->
  dropna_value df
  = Returned (with_rows df (filter (fun r => value_notna (value r)) (rows df))).
Proof.
  intros Hcols. unfold dropna_value, require_column.
  rewrite in_columns_sample_keys by (try assumption; simpl; tauto).
  reflexivity.
Qed.

Lemma select_timestamp_notna_Returned (df : DataFrame) :
  columns df = sample_keys ->
  select_timestamp_notna df
  = Returned (with_rows df
      (filter (fun r => match timestamp r with Some _ => true | None => false end)
              (rows df))).
Proof.
  intros Hcols. unfold select_timestamp_notna, require_column.
  rewrite in_columns_sample_keys by (try assumption; simpl; tauto).
  reflexivity.
Qed.

(** On a frame with the columns of the samples, [_clean_data] is the three
    filters, then deduplication, then range validation. *)
Lemma _clean_data_stages (self : DataTransformer) (df : DataFrame) :
  columns df = sample_keys ->
  _clean_data self df
  = (let df3 := with_rows df (filter (passes_prefilters self) (rows df)) in
     df4 <- (if get_flag (remove_duplicates (cleaning_config self)) true
             then drop_duplicates dedup_subset df3 else Returned df3) ;;
     df5 <- (if get_flag (validate_value_ranges (cleaning_config self)) true
             then _validate_value_ranges df4 else Returned df4) ;;
     Returned df5).
Proof.
  intros Hcols. unfold _clean_data, passes_prefilters.
  set (nulls := get_flag (remove_nulls (cleaning_config self)) true).
  set (stamps := get_flag (validate_timestamps (cleaning_config self)) true).
  set (df1 := if nulls
              then with_rows df (filter (fun r => value_notna (value r)) (rows df))
              else df).
  assert (H1 : (if nulls then dropna_value df else Returned df) = Returned df1).
  { unfold df1. destruct nulls; [apply dropna_value_Returned, Hcols | reflexivity]. }
  assert (Hcols1 : columns df1 = sample_keys)
    by (unfold df1; destruct nulls; assumption).
  rewrite H1. cbn [bind].
  set (df2 := if stamps
              then with_rows df1
                     (filter (fun r => match timestamp r with
                                       | Some _ => true
                                       | None => false
                                       end) (rows df1))
              else df1).
  assert (H2 : (if stamps then select_timestamp_notna df1 else Returned df1)
               = Returned df2).
  { unfold df2. destruct stamps;
      [apply select_timestamp_notna_Returned, Hcols1 | reflexivity]. }
  assert (Hcols2 : columns df2 = sample_keys)
    by (unfold df2; destruct stamps; assumption).
  rewrite H2. cbn [bind].
  rewrite (in_columns_sample_keys df2) by (try assumption; simpl; tauto).
  rewrite (in_columns_sample_keys (select_metric_isin _ df2))
    by (try assumption; simpl; tauto).
  cbv zeta.
  replace (select_metric_isin (valid_metrics self) df2)
    with (with_rows df
            (filter
               (fun r =>
                  (if nulls then value_notna (value r) else true)
                  && (if stamps
                      then match timestamp r with Some _ => true | None => false end
                      else true)
                  && str_in (metric_name r) (valid_metrics self))
               (rows df))).
  - reflexivity.
  - unfold select_metric_isin, df2, df1, with_rows.
    destruct nulls, stamps; cbn [rows columns]; rewrite ?filter_filter;
      f_equal; apply filter_ext; intros r; simpl;
      rewrite ?andb_assoc, ?andb_true_r; reflexivity.
Qed.

Lemma option_eqb_eq {A : Type} (eqb : A -> A -> bool) :
  (forall a b, eqb a b = true <-> a = b) ->
  forall x y, option_eqb eqb x y = true <-> x = y.
Proof.
  intros Heqb [a |] [b |]; simpl; try (split; congruence).
  rewrite Heqb. split; congruence.
Qed.

Lemma key_eqb_eq (k1 k2 : row_key) : key_eqb k1 k2 = true <-> k1 = k2.
Proof.
  destruct k1 as [t1 n1], k2 as [t2 n2]. unfold key_eqb. simpl.
  rewrite andb_true_iff.
  rewrite (option_eqb_eq _ (option_eqb_eq _ Z.eqb_eq)).
  rewrite (option_eqb_eq _ String.eqb_eq).
  split; [intros [-> ->]; reflexivity | intros H; injection H; auto].
Qed.

Lemma seen_In (k : row_key) (seen : list row_key) :
  existsb (key_eqb k) seen = true <-> In k seen.
Proof.
  rewrite existsb_exists. split.
  - intros (x & Hx & Heq). apply key_eqb_eq in Heq. subst. exact Hx.
  - intros H. exists k. split; [exact H | apply key_eqb_eq; reflexivity].
Qed.

Section KeepFirst.
Variable subset : list string.

(** A row that [keep_first] keeps is the first row of its key, and its
    key was not seen before. *)
Lemma keep_first_is_first (l : list RawSample) :
  forall seen r,
    In r (keep_first subset seen l) ->
    ~ In (key_of subset r) seen
    /\ exists earlier later,
         l = earlier ++ r :: later
         /\ forall x, In x earlier -> key_of subset x <> key_of subset r.
Proof.
  induction l as [| r0 l IH]; simpl; intros seen r Hr; [contradiction |].
  destruct (existsb (key_eqb (key_of subset r0)) seen) eqn:Hseen.
  - apply seen_In in Hseen.
    destruct (IH seen r Hr) as (Hfresh & earlier & later & -> & Hfirst).
    split; [exact Hfresh |].
    exists (r0 :: earlier), later. split; [reflexivity |].
    intros x [<- | Hx]; [| apply Hfirst, Hx].
    intros Heq. apply Hfresh. rewrite <- Heq. exact Hseen.
  - assert (Hnew : ~ In (key_of subset r0) seen).
    { intros Hin. apply seen_In in Hin. congruence. }
    destruct Hr as [<- | Hr].
    + split; [exact Hnew |].
      exists [], l. split; [reflexivity | intros x []].
    + destruct (IH _ r Hr) as (Hfresh & earlier & later & -> & Hfirst).
      simpl in Hfresh.
      split; [tauto |].
      exists (r0 :: earlier), later. split; [reflexivity |].
      intros x [<- | Hx]; [| apply Hfirst, Hx].
      intros Heq. apply Hfresh. left. exact Heq.
Qed.

(** No two rows that [keep_first] keeps have the same key. *)
Lemma keep_first_distinct (l : list RawSample) :
  forall seen,
    ForallOrdPairs (fun a b => key_of subset a <> key_of subset b) (keep_first subset seen l).
Proof.
  induction l as [| r0 l IH]; simpl; intros seen; [constructor |].
  destruct (existsb (key_eqb (key_of subset r0)) seen); [apply IH |].
  constructor; [| apply IH].
  apply Forall_forall. intros b Hb.
  apply keep_first_is_first in Hb as [Hfresh _].
  simpl in Hfresh. tauto.
Qed.
End KeepFirst.

Lemma subseq_ForallOrdPairs {A : Type} (R : A -> A -> Prop) (s l : list A) :
  subseq s l -> ForallOrdPairs R l -> ForallOrdPairs R s.
Proof.
  induction 1 as [| x s l Hsub IH | x s l Hsub IH]; intros Hl.
  - constructor.
  - inversion Hl; subst. apply IH. assumption.
  - inversion Hl as [| y l' Hx Hrest]; subst. constructor; [| apply IH, Hrest].
    rewrite Forall_forall in *. intros b Hb. apply Hx.
    eapply subseq_In; eassumption.
Qed.

Lemma ForallOrdPairs_impl {A : Type} (R S : A -> A -> Prop) (l : list A) :
  (forall a b, R a b -> S a b) -> ForallOrdPairs R l -> ForallOrdPairs S l.
Proof.
  intros HRS. induction 1 as [| x l Hx _ IH]; constructor; [| exact IH].
  eapply Forall_impl; [| exact Hx]. intros b. apply HRS.
Qed.

Lemma same_key_key_of (a b : RawSample) :
  same_key a b -> key_of dedup_subset a = key_of dedup_subset b.
Proof.
  intros (Hts & Hname & _). unfold key_of. rewrite Hts, Hname. reflexivity.
Qed.

Lemma convert_row_sample_keys (r : RawSample) :
  exists point, convert_row sample_keys r = Returned point.
Proof. unfold convert_row. eexists. reflexivity. Qed.

Lemma _to_influxdb_format_each (rs : list RawSample) :
  length (_to_influxdb_format {| columns := sample_keys; rows := rs |}) = length rs.
Proof.
  unfold _to_influxdb_format. cbn [columns rows].
  induction rs as [| r rs IH]; [reflexivity |].
  cbn [flat_map]. rewrite length_app, IH.
  destruct (convert_row_sample_keys r) as [point ->]. reflexivity.
Qed.

Lemma drop_duplicates_Returned (df df' : DataFrame) :
  columns df = sample_keys ->
  drop_duplicates dedup_subset df = Returned df' ->
  df' = with_rows df (keep_first dedup_subset [] (rows df))
  /\ forall r, In r (rows df) -> labels r = None.
Proof.
  intros Hcols. unfold drop_duplicates, empty. rewrite Hcols.
  destruct df as [cols [| r rs]]; simpl in Hcols; subst cols.
  - intros H. injection H as <-. split; [reflexivity | intros r []].
  - cbn [sample_keys].
    destruct (filter _ dedup_subset); [| discriminate].
    destruct (_ && _) eqn:Hdict; [discriminate |].
    intros H. injection H as <-. split; [reflexivity |].
    intros r0 Hr0. cbn [andb str_in existsb dedup_subset] in Hdict.
    replace (String.eqb "labels" "timestamp") with false in Hdict by reflexivity.
    replace (String.eqb "labels" "metric_name") with false in Hdict by reflexivity.
    replace (String.eqb "labels" "labels") with true in Hdict by reflexivity.
    cbn [orb andb] in Hdict.
    destruct (labels r0) eqn:Hl; [| reflexivity].
    assert (existsb (fun r1 => is_dict (labels r1)) (rows {| columns := sample_keys; rows := r :: rs |}) = true).
    { apply existsb_exists. exists r0. split; [exact Hr0 |]. rewrite Hl. reflexivity. }
    congruence.
Qed.

(** When a row has no earlier row of its key, [keep_first] keeps it. *)
Lemma keep_first_keeps (subset : list string) (r : RawSample) (later : list RawSample) :
  forall earlier seen,
    (forall x, In x earlier -> key_of subset x <> key_of subset r) ->
    ~ In (key_of subset r) seen ->
    In r (keep_first subset seen (earlier ++ r :: later)).
Proof.
  induction earlier as [| x earlier IH]; simpl; intros seen Hfirst Hfresh.
  - destruct (existsb _ seen) eqn:Hseen.
    + apply seen_In in Hseen. contradiction.
    + left. reflexivity.
  - destruct (existsb (key_eqb (key_of subset x)) seen).
    + apply IH; [intros y Hy; apply Hfirst; right; exact Hy | exact Hfresh].
    + right. apply IH; [intros y Hy; apply Hfirst; right; exact Hy |].
      simpl. intros [Heq | Hin]; [| contradiction].
      apply (Hfirst x); [left; reflexivity | exact Heq].
Qed.

(** What a run of [_clean_data] that returns leaves of the samples. *)
Lemma _clean_data_rows (self : DataTransformer) (raw_data : list RawSample)
    (df5 : DataFrame) :
  _clean_data self (pd_DataFrame raw_data) = Returned df5 ->
  let survivors := filter (passes_prefilters self) (rows (pd_DataFrame raw_data)) in
  let deduped :=
    if get_flag (remove_duplicates (cleaning_config self)) true
    then keep_first dedup_subset [] survivors else survivors in
  columns df5 = sample_keys
  /\ rows df5
     = (if get_flag (validate_value_ranges (cleaning_config self)) true
        then filter in_range deduped else deduped)
  /\ (get_flag (remove_duplicates (cleaning_config self)) true = true ->
      forall r, In r survivors -> labels r = None).
Proof.
  intros Hclean survivors deduped.
  rewrite _clean_data_stages in Hclean by reflexivity. cbv zeta in Hclean.
  apply bind_Returned in Hclean as (df4 & Hdd & Hclean).
  apply bind_Returned in Hclean as (df5' & Hranges & Hclean).
  injection Hclean as ->.
  assert (H4 : columns df4 = sample_keys /\ rows df4 = deduped
               /\ (get_flag (remove_duplicates (cleaning_config self)) true = true ->
                   forall r, In r survivors -> labels r = None)).
  { unfold deduped.
    destruct (get_flag (remove_duplicates (cleaning_config self)) true).
    - apply drop_duplicates_Returned in Hdd as [-> Hnone]; [| reflexivity].
      split; [reflexivity |]. split; [reflexivity |]. intros _. exact Hnone.
    - injection Hdd as <-. split; [reflexivity |]. split; [reflexivity |].
      discriminate. }
  destruct H4 as (Hcols4 & Hrows4 & Hnone).
  destruct (get_flag (validate_value_ranges (cleaning_config self)) true).
  - pose proof (_validate_value_ranges_shrinks _ _ Hranges) as [Hcols5 _].
    unfold _validate_value_ranges in Hranges.
    rewrite !in_columns_sample_keys in Hranges by (try assumption; simpl; tauto).
    cbn [negb orb] in Hranges.
    apply apply_rules_Returned in Hranges. subst df5.
    cbn [with_rows columns rows]. rewrite Hrows4.
    split; [exact Hcols4 |]. split; [reflexivity | exact Hnone].
  - injection Hranges as <-.
    split; [exact Hcols4 |]. split; [exact Hrows4 | exact Hnone].
Qed.

(** The result of a [try] block that returns: the reshape of the cleaned
    rows. *)
Lemma transform_body_Returned (self : DataTransformer) (raw_data : list RawSample)
    (out : list StoragePoint.t) :
  transform_body self raw_data = Returned out ->
  exists df5,
    _clean_data self (pd_DataFrame raw_data) = Returned df5
    /\ out = _to_influxdb_format {| columns := sample_keys; rows := rows df5 |}.
Proof.
  unfold transform_body. intros Hbody.
  apply bind_Returned in Hbody as (df5 & Hclean & Hbody).
  exists df5. split; [exact Hclean |].
  destruct (_clean_data_rows _ _ _ Hclean) as (Hcols & _ & _).
  destruct df5 as [cols rs]. cbn [columns rows] in *. subst cols.
  unfold empty in Hbody. cbn [columns rows sample_keys] in Hbody.
  destruct rs; injection Hbody as <-; reflexivity.
Qed.

Lemma first_survivors_nil (survivors : list RawSample) : first_survivors survivors [].
Proof.
  split; [apply subseq_empty |]. split; [constructor |]. intros r [].
Qed.

Lemma first_survivors_keep_first (survivors kept : list RawSample) :
  subseq kept (keep_first dedup_subset [] survivors) ->
  first_survivors survivors kept.
Proof.
  intros Hsub. split; [| split].
  - eapply subseq_trans; [exact Hsub | apply keep_first_subseq].
  - eapply subseq_ForallOrdPairs; [exact Hsub |].
    eapply ForallOrdPairs_impl; [| apply keep_first_distinct].
    intros a b Hne Hsame. apply Hne, same_key_key_of, Hsame.
  - intros r Hr.
    apply (subseq_In _ _ _ Hsub), keep_first_is_first in Hr
      as (_ & earlier & later & Hsplit & Hfirst).
    exists earlier, later. split; [exact Hsplit |].
    intros x Hx Hsame. apply (Hfirst x Hx), same_key_key_of, Hsame.
Qed.

(** ** Range validation *)

(** X5. Range validation as the pass [_validate_value_ranges] on a frame
    with the [metric_name] and [value] columns. It returns on every frame
    whose [value] column holds floats, and whenever it returns it has only
    removed rows, such that: an [up] row with value 2 is dropped and one with
    value 1 is kept (an [up] row with a number is kept exactly when the
    number is 0 or 1); a row of the request rate, latency quantile or error
    rate with a negative value is dropped and one with a value that is not
    negative is kept; a row of a metric without a rule is kept. And in
    [transform] with range validation enabled: no point is built from an [up]
    row with a number other than 0 and 1, nor from a rate, quantile or error
    rate row with a negative number. *)
Theorem validate_value_ranges_drops_out_of_range :
  (forall df : DataFrame,
     in_columns "metric_name" df = true ->
     in_columns "value" df = true ->
     (Forall (fun r => value r <> PyNone) (rows df) ->
      exists df', _validate_value_ranges df = Returned df')
     /\ forall df',
          _validate_value_ranges df = Returned df' ->
          columns df' = columns df
          /\ subseq (rows df') (rows df)
          /\ (forall r, In r (rows df) -> metric_name r = "up" ->
                (value r = Num 2 -> ~ In r (rows df'))
                /\ (value r = Num 1 -> In r (rows df'))
                /\ (forall q, value r = Num q ->
                      (In r (rows df') <-> q == 0 \/ q == 1)%Q))
          /\ (forall r q,
                In r (rows df) ->
                In (metric_name r)
                   [ "rate(http_requests_total[5m])";
                     "histogram_quantile(0.95, rate(http_request_duration_seconds_bucket[5m]))";
                     error_rate_query ] ->
                value r = Num q ->
                ((q < 0)%Q -> ~ In r (rows df'))
                /\ ((0 <= q)%Q -> In r (rows df')))
          /\ (forall r, In r (rows df) ->
                ~ In (metric_name r) (map fst validation_rules) ->
                In r (rows df')))
  /\ (forall (self : DataTransformer) (raw_data : list RawSample),
        get_flag (validate_value_ranges (cleaning_config self)) true = true ->
        exists kept,
          transform self raw_data
          = Returned (_to_influxdb_format {| columns := sample_keys; rows := kept |})
          /\ length (_to_influxdb_format {| columns := sample_keys; rows := kept |})
             = length kept
          /\ subseq kept (rows (pd_DataFrame raw_data))
          /\ forall r q, In r kept -> value r = Num q ->
               (metric_name r = "up" -> (q == 0 \/ q == 1)%Q)
               /\ (In (metric_name r)
                      [ "rate(http_requests_total[5m])";
                        "histogram_quantile(0.95, rate(http_request_duration_seconds_bucket[5m]))";
                        error_rate_query ] ->
                   (0 <= q)%Q)).
Proof.
  split.
  - intros df Hname Hvalue. unfold _validate_value_ranges.
    rewrite Hname, Hvalue. simpl orb. cbv iota.
    split.
    + intros Hfloat. apply apply_rules_total.
      intros rule r Hrule Hr. apply validators_total; [exact Hrule |].
      rewrite Forall_forall in Hfloat. apply Hfloat, Hr.
    + intros df' Hret.
      pose proof (apply_rules_shrinks _ _ _ Hret) as [Hcols Hsub].
      apply apply_rules_Returned in Hret.
      assert (Hin : forall r, In r (rows df') <-> In r (rows df) /\ in_range r = true).
      { intros r. rewrite Hret. simpl. apply filter_In. }
      split; [exact Hcols |]. split; [exact Hsub |].
      split; [| split].
      * intros r Hr Hm. split; [| split].
        -- intros Hv Hkept. apply Hin in Hkept as [_ Hpass].
           rewrite (in_range_up r 2%Q Hm Hv) in Hpass. discriminate Hpass.
        -- intros Hv. apply Hin. split; [exact Hr |].
           rewrite (in_range_up r 1%Q Hm Hv). reflexivity.
        -- intros q Hv. rewrite Hin, (in_range_up r q Hm Hv).
           rewrite orb_true_iff, !Qeq_bool_iff. tauto.
      * intros r q Hr Hm Hv. split.
        -- intros Hneg Hkept. apply Hin in Hkept as [_ Hpass].
           rewrite (in_range_ge_0 r q Hm Hv) in Hpass.
           apply Qle_bool_iff in Hpass. apply (Qlt_not_le _ _ Hneg), Hpass.
        -- intros Hpos. apply Hin. split; [exact Hr |].
           rewrite (in_range_ge_0 r q Hm Hv). apply Qle_bool_iff, Hpos.
      * intros r Hr Hnone. apply Hin. split; [exact Hr |].
        apply passes_unregistered, Hnone.
  - intros self raw_data Hranges.
    destruct (transform_body self raw_data) as [out | e] eqn:Hbody.
    + pose proof (transform_of_body_Returned _ _ _ Hbody) as Hout.
      apply transform_body_Returned in Hbody as (df5 & Hclean & ->).
      destruct (_clean_data_rows _ _ _ Hclean) as (_ & Hrows & _).
      apply _clean_data_shrinks in Hclean as [_ Hsub].
      rewrite Hranges in Hrows.
      exists (rows df5). split; [exact Hout |].
      split; [apply _to_influxdb_format_each |]. split; [exact Hsub |].
      intros r q Hr Hv.
      rewrite Hrows in Hr. apply filter_In in Hr as [_ Hpass]. split.
      * intros Hm. rewrite (in_range_up r q Hm Hv) in Hpass.
        apply orb_true_iff in Hpass. rewrite !Qeq_bool_iff in Hpass. exact Hpass.
      * intros Hm. rewrite (in_range_ge_0 r q Hm Hv) in Hpass.
        apply Qle_bool_iff, Hpass.
    + exists []. split; [eapply transform_of_body_Raised, Hbody |].
      split; [reflexivity |]. split; [apply subseq_empty |]. intros r q [].
Qed.

(** ** Deduplication: at most the first sample of a key *)

(** X13. With [remove_duplicates] enabled, the points that [transform]
    returns are built, one each, from rows [kept] such that: no two of them
    have the same timestamp, metric name and labels; each is the first row
    with its key among the samples that pass the null, timestamp and
    allow-list filters; and each passes the rule of its metric when range
    validation is enabled. So the samples of one key give at most one point,
    and never one of a later sample. And when the [try] block has raised
    nothing, the first sample of a key among those that pass the filters
    does give a point if it is in range (or range validation is off). *)
Theorem dedup_at_most_first_survivor (self : DataTransformer)
    (raw_data : list RawSample) :
  get_flag (remove_duplicates (cleaning_config self)) true = true ->
  let survivors := filter (passes_prefilters self) (rows (pd_DataFrame raw_data)) in
  exists kept,
    transform self raw_data
    = Returned (_to_influxdb_format {| columns := sample_keys; rows := kept |})
    /\ length (_to_influxdb_format {| columns := sample_keys; rows := kept |})
       = length kept
    /\ first_survivors survivors kept
    /\ (get_flag (validate_value_ranges (cleaning_config self)) true = true ->
        forall r, In r kept -> in_range r = true)
    /\ (forall out,
          transform_body self raw_data = Returned out ->
          forall r earlier later,
            survivors = earlier ++ r :: later ->
            (forall x, In x earlier -> ~ same_key x r) ->
            (get_flag (validate_value_ranges (cleaning_config self)) true = true ->
             in_range r = true) ->
            In r kept).
Proof.
  intros Hdedup survivors.
  destruct (transform_body self raw_data) as [out | e] eqn:Hbody.
  - pose proof (transform_of_body_Returned _ _ _ Hbody) as Hout.
    apply transform_body_Returned in Hbody as (df5 & Hclean & ->).
    destruct (_clean_data_rows _ _ _ Hclean) as (_ & Hrows & Hnone).
    fold survivors in Hrows, Hnone. rewrite Hdedup in Hrows.
    specialize (Hnone Hdedup).
    exists (rows df5). split; [exact Hout |].
    split; [apply _to_influxdb_format_each |]. split; [| split].
    + apply first_survivors_keep_first. rewrite Hrows.
      destruct (get_flag (validate_value_ranges _) true);
        [apply subseq_filter | apply subseq_refl].
    + intros Hranges r Hr. rewrite Hrows, Hranges in Hr.
      apply filter_In in Hr as [_ Hr]. exact Hr.
    + intros out' _ r earlier later Hsplit Hfirst Hrange.
      assert (Hkept : In r (keep_first dedup_subset [] survivors)).
      { rewrite Hsplit. apply keep_first_keeps; [| intros []].
        intros x Hx Hkey. apply (Hfirst x Hx).
        assert (Hx' : In x survivors)
          by (rewrite Hsplit; apply in_or_app; left; exact Hx).
        assert (Hr' : In r survivors)
          by (rewrite Hsplit; apply in_or_app; right; left; reflexivity).
        unfold key_of in Hkey. cbn [str_in existsb dedup_subset] in Hkey.
        replace (String.eqb "timestamp" "timestamp") with true in Hkey by reflexivity.
        replace (String.eqb "metric_name" "timestamp") with false in Hkey by reflexivity.
        replace (String.eqb "metric_name" "metric_name") with true in Hkey by reflexivity.
        cbn [orb] in Hkey. injection Hkey as Hts Hname.
        repeat split; [exact Hts | exact Hname |].
        rewrite (Hnone x Hx'), (Hnone r Hr'). reflexivity. }
      rewrite Hrows.
      destruct (get_flag (validate_value_ranges _) true); [| exact Hkept].
      apply filter_In. split; [exact Hkept | apply Hrange; reflexivity].
  - exists []. split; [eapply transform_of_body_Raised, Hbody |].
    split; [reflexivity |]. split; [apply first_survivors_nil |].
    split; [intros _ r [] |].
    intros out Hcontra. discriminate Hcontra.
Qed.

(** ** The end-to-end scenario *)

(** C7, on the code. With the default configuration the scenario gives no
    point: [drop_duplicates] meets the dict in the [labels] column and
    raises, and [transform] answers the empty list. *)
Theorem end_to_end_default_gives_no_point (T : Z) :
  transform_body default_transformer [end_to_end_sample T]
  = Raised (TypeError "unhashable type: 'dict'")
  /\ transform default_transformer [end_to_end_sample T] = Returned [].
Proof. split; reflexivity. Qed.

(** The point of the scenario is the one that the other stages build: it
    comes out as soon as deduplication is turned off. *)
Lemma end_to_end_without_dedup (T : Z) :
  transform transformer_without_dedup [end_to_end_sample T]
  = Returned [end_to_end_point T].
Proof. reflexivity. Qed.

(** The pass over the rows itself gives the point of the scenario. *)
Lemma end_to_end_reshape (T : Z) :
  _to_influxdb_format (pd_DataFrame [end_to_end_sample T]) = [end_to_end_point T].
Proof. reflexivity. Qed.

(** Deduplication does work on samples whose [labels] are [None]: of two
    such samples with one key, the first gives the only point. *)
Lemma dedup_unlabelled_pair :
  transform default_transformer
    [unlabelled_up 1700000000 1; unlabelled_up 1700000000 0]
  = Returned
      [ {| StoragePoint.measurement := "health_metrics";
           StoragePoint.tags :=
             [("service", "unknown"); ("instance", "unknown"); ("metric_type", "up")];
           StoragePoint.fields := [("value", Num 1)];
           StoragePoint.timestamp := Some 1700000000 |} ].
Proof. reflexivity. Qed.

(** Deduplication comes before range validation: when the first sample of
    a key is out of range, the key gives no point, whatever follows. *)
Lemma dedup_then_range_validation :
  transform default_transformer
    [unlabelled_up 1700000000 2; unlabelled_up 1700000000 1]
  = Returned [].
Proof. reflexivity. Qed.

(** ** Cycle accounting *)

(** Runs a method of the pipeline up to its next call or test. *)
Ltac step_method :=
  unfold run_single_cycle, cycle_body, Method.try_except, Method.bind,
    Method.self, Method.attr, Method.invoke, Method.update_stats, Method.ret;
  cbn [fst snd app].

(** C4. When the extractor answers the empty list, [run_single_cycle]
    returns [True]; [cycles_completed] grows by one, [cycles_failed] and
    [total_data_points] keep their values, and neither the transformer nor
    the loader is called. *)
Theorem empty_extraction_is_completed_cycle (cycle_start_time : Z)
    (self : ETLPipeline) (ex : PrometheusExtractor) :
  extractor self = Some ex ->
  get_basic_metrics ex = Returned [] ->
  exists self',
    run_single_cycle cycle_start_time (self, [])
    = ((self', [Call_get_basic_metrics]), Returned true)
    /\ cycles_completed (stats self') = cycles_completed (stats self) + 1
    /\ cycles_failed (stats self') = cycles_failed (stats self)
    /\ total_data_points (stats self') = total_data_points (stats self)
    /\ last_run_time (stats self') = Some cycle_start_time.
Proof.
  intros Hex Hraw.
  step_method. rewrite Hex. cbn [fst snd]. rewrite Hraw. cbn [fst snd app].
  eexists. split; [reflexivity |].
  cbn [stats set_stats add_cycles_completed set_last_run_time cycles_completed
       cycles_failed total_data_points last_run_time].
  repeat split.
Qed.

(** X16. When the extractor answers samples of which the transformer makes
    a batch that is not empty, and [load_data] answers [False] on that batch,
    [run_single_cycle] returns [False]; [cycles_failed] grows by one,
    [cycles_completed], [total_data_points] and [last_run_time] keep their
    values, and [load_data] has been called once. *)
Theorem failed_load_is_failed_cycle (cycle_start_time : Z) (self : ETLPipeline)
    (ex : PrometheusExtractor) (tr : DataTransformer) (ld : InfluxDBLoader)
    (raw_data : list RawSample) (transformed_data : list StoragePoint.t) :
  extractor self = Some ex ->
  transformer self = Some tr ->
  loader self = Some ld ->
  get_basic_metrics ex = Returned raw_data ->
  transform tr raw_data = Returned transformed_data ->
  transformed_data <> [] ->
  load_data ld transformed_data = Returned false ->
  exists self',
    run_single_cycle cycle_start_time (self, [])
    = ((self',
        [Call_get_basic_metrics; Call_transform raw_data;
         Call_load_data transformed_data]),
       Returned false)
    /\ cycles_failed (stats self') = cycles_failed (stats self) + 1
    /\ cycles_completed (stats self') = cycles_completed (stats self)
    /\ total_data_points (stats self') = total_data_points (stats self)
    /\ last_run_time (stats self') = last_run_time (stats self).
Proof.
  intros Hex Htr Hld Hraw Hout Hsome Hload.
  assert (Hinput : raw_data <> []).
  { intros ->. simpl in Hout. injection Hout as <-. apply Hsome. reflexivity. }
  step_method. rewrite Hex. cbn [fst snd]. rewrite Hraw. cbn [fst snd app].
  destruct raw_data as [| s raw_data]; [contradiction |].
  rewrite Htr. cbn [fst snd]. rewrite Hout. cbn [fst snd app].
  destruct transformed_data as [| p transformed_data]; [contradiction |].
  rewrite Hld. cbn [fst snd]. rewrite Hload. cbn [fst snd app].
  eexists. split; [reflexivity |].
  cbn [stats set_stats add_cycles_failed cycles_completed cycles_failed
       total_data_points last_run_time].
  repeat split.
Qed.

(** A cycle of a pipeline that was not initialized fails on its first
    attribute access, and the [except] clause counts a failed cycle. *)
Lemma cycle_before_initialize (monitoring : MonitoringConfig) (t : Z) :
  run_single_cycle t (ETLPipeline__init__ monitoring, [])
  = ((set_stats (ETLPipeline__init__ monitoring) (add_cycles_failed 1 initial_stats),
      []),
     Returned false).
Proof. reflexivity. Qed.

(** ** Health classification *)







(** * The theorems at concrete inputs *)

(** Deduplication enabled, two samples of one key without labels. *)
Lemma dedup_at_most_first_survivor_witness :
  get_flag (remove_duplicates (cleaning_config default_transformer)) true = true
  /\ exists kept,
       transform default_transformer
         [unlabelled_up 1700000000 1; unlabelled_up 1700000000 0]
       = Returned (_to_influxdb_format {| columns := sample_keys; rows := kept |})
       /\ length (_to_influxdb_format {| columns := sample_keys; rows := kept |})
          = length kept
       /\ In (unlabelled_up 1700000000 1) kept
       /\ ~ In (unlabelled_up 1700000000 0) kept.
Proof.
  split; [reflexivity |].
  destruct (dedup_at_most_first_survivor default_transformer
              [unlabelled_up 1700000000 1; unlabelled_up 1700000000 0] eq_refl)
    as (kept & Hout & Hlen & (_ & _ & Hfirst) & _ & Hkeeps).
  exists kept. split; [exact Hout |]. split; [exact Hlen |]. split.
  - apply (Hkeeps _ eq_refl (unlabelled_up 1700000000 1) []
             [unlabelled_up 1700000000 0]).
    + reflexivity.
    + intros x [].
    + intros _. reflexivity.
  - intros Hin. destruct (Hfirst _ Hin) as (earlier & later & Hsplit & Hnone).
    destruct earlier as [| x earlier].
    + discriminate Hsplit.
    + injection Hsplit as <- _. apply (Hnone _ (or_introl eq_refl)).
      repeat split.
Defined.

(** A first cycle without data. *)
Lemma empty_extraction_is_completed_cycle_witness :
  exists self',
    run_single_cycle 1700000000 (pipeline_without_data, [])
    = ((self', [Call_get_basic_metrics]), Returned true)
    /\ cycles_completed (stats self') = 0 + 1
    /\ cycles_failed (stats self') = 0
    /\ total_data_points (stats self') = 0
    /\ last_run_time (stats self') = Some 1700000000.
Proof.
  apply (empty_extraction_is_completed_cycle 1700000000 pipeline_without_data
           {| get_basic_metrics := Returned [] |});
    reflexivity.
Defined.

(** A first cycle with the sample of the end-to-end scenario and a loader
    that reports failure. *)
Lemma failed_load_is_failed_cycle_witness :
  exists self',
    run_single_cycle 1700000000 (pipeline_with_failing_loader, [])
    = ((self',
        [Call_get_basic_metrics;
         Call_transform [end_to_end_sample 1700000000];
         Call_load_data [end_to_end_point 1700000000]]),
       Returned false)
    /\ cycles_failed (stats self') = 0 + 1
    /\ cycles_completed (stats self') = 0
    /\ total_data_points (stats self') = 0
    /\ last_run_time (stats self') = None.
Proof.
  apply (failed_load_is_failed_cycle 1700000000 pipeline_with_failing_loader
           {| get_basic_metrics := Returned [end_to_end_sample 1700000000] |}
           transformer_without_dedup
           {| load_data := fun _ => Returned false |}
           [end_to_end_sample 1700000000]
           [end_to_end_point 1700000000]);
    try reflexivity.
  discriminate.
Defined.

(** Range validation of [range_frame]. *)
Lemma validate_value_ranges_drops_out_of_range_witness :
  exists df',
    _validate_value_ranges range_frame = Returned df'
    /\ ~ In (range_sample "up" 2) (rows df')
    /\ In (range_sample "up" 1) (rows df')
    /\ ~ In (range_sample "rate(http_requests_total[5m])" (-1)) (rows df')
    /\ In (range_sample "http_requests_total" (-5)) (rows df').
Proof.
  destruct validate_value_ranges_drops_out_of_range as [Hpass _].
  destruct (Hpass range_frame eq_refl eq_refl) as [Hreturns Hspec].
  destruct Hreturns as [df' Hret].
  { repeat constructor; discriminate. }
  exists df'. split; [exact Hret |].
  destruct (Hspec df' Hret) as (_ & _ & Hup & Hrate & Hother).
  split; [| split; [| split]].
  - apply (Hup (range_sample "up" 2)); [simpl; tauto | reflexivity | reflexivity].
  - apply (Hup (range_sample "up" 1)); [simpl; tauto | reflexivity | reflexivity].
  - apply (Hrate (range_sample "rate(http_requests_total[5m])" (-1)) (-1)%Q);
      [simpl; tauto | simpl; tauto | reflexivity | reflexivity].
  - apply (Hother (range_sample "http_requests_total" (-5))); [simpl; tauto |].
    vm_compute. intuition discriminate.
Defined.

(** Label values of 150, 100, 99 and 50 characters, and values of 60 and
    100 characters outside ASCII, which take 120 and 200 bytes. *)
Lemma label_cardinality_guard_witness :
  let reshape := fun lbls =>
    _to_influxdb_format
      {| columns := sample_keys;
         rows := [ {| timestamp := Some 1700000000; metric_name := "up";
                      labels := Some lbls; value := Num 1 |} ] |} in
  reshape [("job", "test-app"); ("path", x_string 150)] = reshape [("job", "test-app")]
  /\ reshape [("job", "test-app"); ("path", x_string 100)] = reshape [("job", "test-app")]
  /\ (exists point,
        reshape [("job", "test-app"); ("path", x_string 99)] = [point]
        /\ dict_lookup (StoragePoint.tags point) "path" = Some (x_string 99))
  /\ (exists point,
        reshape [("job", "test-app"); ("path", x_string 50)] = [point]
        /\ dict_lookup (StoragePoint.tags point) "path" = Some (x_string 50))
  /\ (exists point,
        reshape [("job", "test-app"); ("path", e_acute_string 60)] = [point]
        /\ dict_lookup (StoragePoint.tags point) "path" = Some (e_acute_string 60))
  /\ reshape [("job", "test-app"); ("path", e_acute_string 100)]
     = reshape [("job", "test-app")].
Proof.
  intros reshape.
  assert (Hkeys : forall v, NoDup (map fst [("job", "test-app"); ("path", v)])).
  { intros v. repeat constructor; simpl; intuition discriminate. }
  split; [| split; [| split; [| split; [| split]]]].
  - destruct (label_cardinality_guard (Some 1700000000) "up" (Num 1)
                [("job", "test-app")] [] "path" (x_string 150) eq_refl (Hkeys _))
      as [Hlong _].
    apply Hlong. vm_compute. lia.
  - destruct (label_cardinality_guard (Some 1700000000) "up" (Num 1)
                [("job", "test-app")] [] "path" (x_string 100) eq_refl (Hkeys _))
      as [Hlong _].
    apply Hlong. vm_compute. lia.
  - destruct (label_cardinality_guard (Some 1700000000) "up" (Num 1)
                [("job", "test-app")] [] "path" (x_string 99) eq_refl (Hkeys _))
      as [_ Hshort].
    apply Hshort. vm_compute. lia.
  - destruct (label_cardinality_guard (Some 1700000000) "up" (Num 1)
                [("job", "test-app")] [] "path" (x_string 50) eq_refl (Hkeys _))
      as [_ Hshort].
    apply Hshort. vm_compute. lia.
  - destruct (label_cardinality_guard (Some 1700000000) "up" (Num 1)
                [("job", "test-app")] [] "path" (e_acute_string 60) eq_refl (Hkeys _))
      as [_ Hshort].
    apply Hshort. vm_compute. lia.
  - destruct (label_cardinality_guard (Some 1700000000) "up" (Num 1)
                [("job", "test-app")] [] "path" (e_acute_string 100) eq_refl (Hkeys _))
      as [Hlong _].
    apply Hlong. vm_compute. lia.
Defined.


(** Two batches in which cleaning raises. In the first, deduplication
    meets a dict: the sample that alone gives a point is lost with the other.
    In the second, the [value] column holds [None] only and the rule of the
    request rate compares [None] with 0. *)
Lemma transform_exception_discards_batch_witness :
  (transform_body default_transformer
     [unlabelled_up 1700000000 1; end_to_end_sample 1700000060]
   = Raised (TypeError "unhashable type: 'dict'")
   /\ transform default_transformer
        [unlabelled_up 1700000000 1; end_to_end_sample 1700000060]
      = Returned [])
  /\ (exists e,
        transform_body transformer_keeping_nulls [request_rate_without_value]
        = Raised e)
  /\ transform transformer_keeping_nulls [request_rate_without_value] = Returned [].
Proof.
  split; [split; [reflexivity |] | split; [eexists; reflexivity |]].
  - apply (transform_exception_discards_batch default_transformer
             [unlabelled_up 1700000000 1; end_to_end_sample 1700000060]
             (TypeError "unhashable type: 'dict'")).
    left. reflexivity.
  - apply (transform_exception_discards_batch transformer_keeping_nulls
             [request_rate_without_value]
             (TypeError
                "'>=' not supported between instances of 'NoneType' and 'int'")).
    right. reflexivity.
Defined.

(** * Further properties of the transformer *)

Lemma pd_DataFrame_rows (raw_data : list RawSample) :
  rows (pd_DataFrame raw_data)
  = map (stored_row (existsb (fun s => is_float (value s)) raw_data)) raw_data.
Proof. reflexivity. Qed.

Lemma stored_row_Num (b : bool) (s : RawSample) :
  value_notna (value s) = true -> stored_row b s = s.
Proof.
  destruct s as [ts name lbls v]. unfold stored_row. simpl.
  destruct v; simpl; intros H; try discriminate H. reflexivity.
Qed.

Lemma stored_row_notna (b : bool) (s : RawSample) :
  value_notna (value (stored_row b s)) = value_notna (value s).
Proof. destruct s as [ts name lbls v]. destruct v, b; reflexivity. Qed.

Lemma _to_influxdb_format_point_of (rs : list RawSample) :
  _to_influxdb_format {| columns := sample_keys; rows := rs |} = map point_of rs.
Proof.
  unfold _to_influxdb_format. cbn [columns rows].
  induction rs as [| r rs IH]; [reflexivity |].
  cbn [flat_map map]. rewrite IH. reflexivity.
Qed.

(** With null removal on, the rows that pass the three filters are the
    samples themselves. *)
Lemma survivors_of_samples (self : DataTransformer) (raw_data : list RawSample) :
  get_flag (remove_nulls (cleaning_config self)) true = true ->
  filter (passes_prefilters self) (rows (pd_DataFrame raw_data))
  = filter (passes_prefilters self) raw_data.
Proof.
  intros Hnulls. rewrite pd_DataFrame_rows.
  generalize (existsb (fun s => is_float (value s)) raw_data). intros b.
  induction raw_data as [| s raw_data IH]; [reflexivity |].
  cbn [map filter]. rewrite IH.
  destruct (value_notna (value s)) eqn:Hv.
  - rewrite (stored_row_Num b s Hv). reflexivity.
  - assert (H1 : passes_prefilters self (stored_row b s) = false).
    { unfold passes_prefilters. rewrite Hnulls, stored_row_notna, Hv. reflexivity. }
    assert (H2 : passes_prefilters self s = false).
    { unfold passes_prefilters. rewrite Hnulls, Hv. reflexivity. }
    rewrite H1, H2. reflexivity.
Qed.

Lemma passes_prefilters_notna (self : DataTransformer) (r : RawSample) :
  get_flag (remove_nulls (cleaning_config self)) true = true ->
  passes_prefilters self r = true ->
  value r <> PyNone.
Proof.
  unfold passes_prefilters. intros -> H.
  apply andb_true_iff in H as [H _]. apply andb_true_iff in H as [H _].
  intros Hv. rewrite Hv in H. discriminate H.
Qed.

(** X1. With null removal on and deduplication off, [transform] works
    sample by sample: its result is made of the points of the samples that
    pass the filters and their rule, in the order of the input; so the result
    for a batch cut in two is the two results put together. *)
Theorem transform_without_dedup_is_per_sample (self : DataTransformer)
    (raw_data more : list RawSample) :
  get_flag (remove_nulls (cleaning_config self)) true = true ->
  get_flag (remove_duplicates (cleaning_config self)) true = false ->
  transform self raw_data = Returned (map point_of (filter (keeps self) raw_data))
  /\ exists out1 out2,
       transform self raw_data = Returned out1
       /\ transform self more = Returned out2
       /\ transform self (raw_data ++ more) = Returned (out1 ++ out2).
Proof.
  intros Hnulls Hdedup.
  assert (Hform : forall l,
             transform self l = Returned (map point_of (filter (keeps self) l))).
  { intros l.
    assert (Hclean : exists df5,
               _clean_data self (pd_DataFrame l) = Returned df5
               /\ columns df5 = sample_keys
               /\ rows df5 = filter (keeps self) l).
    { rewrite _clean_data_stages by reflexivity. cbv zeta.
      rewrite Hdedup. cbn [bind].
      set (df3 := with_rows (pd_DataFrame l)
                    (filter (passes_prefilters self) (rows (pd_DataFrame l)))).
      assert (Hrows3 : rows df3 = filter (passes_prefilters self) l)
        by (apply survivors_of_samples, Hnulls).
      unfold keeps.
      destruct (get_flag (validate_value_ranges (cleaning_config self)) true).
      - assert (Hret : exists df5, _validate_value_ranges df3 = Returned df5).
        { unfold _validate_value_ranges.
          rewrite !in_columns_sample_keys by (try reflexivity; simpl; tauto).
          cbn [negb orb]. apply apply_rules_total.
          intros rule r Hrule Hr. apply validators_total; [exact Hrule |].
          rewrite Hrows3 in Hr. apply filter_In in Hr as [_ Hr].
          apply (passes_prefilters_notna self r Hnulls Hr). }
        destruct Hret as [df5 Hret]. exists df5. rewrite Hret. cbn [bind].
        split; [reflexivity |].
        pose proof (_validate_value_ranges_shrinks _ _ Hret) as [Hcols _].
        split; [rewrite Hcols; reflexivity |].
        unfold _validate_value_ranges in Hret.
        rewrite !in_columns_sample_keys in Hret by (try reflexivity; simpl; tauto).
        cbn [negb orb] in Hret. apply apply_rules_Returned in Hret.
        rewrite Hret. cbn [with_rows rows]. rewrite Hrows3.
        apply filter_filter.
      - exists df3. split; [reflexivity |]. split; [reflexivity |].
        rewrite Hrows3. apply filter_ext. intros r. rewrite andb_true_r. reflexivity. }
    destruct Hclean as (df5 & Hclean & Hcols & Hrows).
    apply transform_of_body_Returned.
    unfold transform_body. rewrite Hclean. cbn [bind].
    destruct df5 as [cols rs]. cbn [columns rows] in Hcols, Hrows. subst cols.
    rewrite <- Hrows. unfold empty. cbn [columns rows sample_keys].
    destruct rs as [| r rs]; [reflexivity |].
    rewrite <- _to_influxdb_format_point_of. reflexivity. }
  split; [apply Hform |].
  exists (map point_of (filter (keeps self) raw_data)),
         (map point_of (filter (keeps self) more)).
  rewrite !Hform, filter_app, map_app. repeat split.
Qed.

Lemma pd_DataFrame_labels (raw_data : list RawSample) (r : RawSample) :
  In r (rows (pd_DataFrame raw_data)) ->
  exists s, In s raw_data /\ labels r = labels s.
Proof.
  rewrite pd_DataFrame_rows. intros Hr.
  apply in_map_iff in Hr as (s & <- & Hs). exists s. split; [exact Hs | reflexivity].
Qed.

(** A sample that the transformer accepts is, as it stands, among the rows
    that pass the filters. *)
Lemma valid_sample_survives (self : DataTransformer) (raw_data : list RawSample)
    (s : RawSample) :
  In s raw_data ->
  valid_sample self s = true ->
  In s (filter (passes_prefilters self) (rows (pd_DataFrame raw_data)))
  /\ is_dict (labels s) = true.
Proof.
  intros Hs Hvalid. unfold valid_sample in Hvalid.
  apply andb_true_iff in Hvalid as [Hvalid Hdict].
  apply andb_true_iff in Hvalid as [Hvalid Hname].
  apply andb_true_iff in Hvalid as [Hvalue Hts].
  split; [| exact Hdict].
  apply filter_In. split.
  - rewrite pd_DataFrame_rows. apply in_map_iff. exists s.
    split; [apply stored_row_Num, Hvalue | exact Hs].
  - unfold passes_prefilters. rewrite Hvalue, Hts, Hname.
    destruct (get_flag (remove_nulls _) true),
             (get_flag (validate_timestamps _) true); reflexivity.
Qed.

(** With deduplication enabled, [drop_duplicates] raises as soon as a row
    with a dict of labels has passed the filters. *)
Lemma dict_survivor_raises (self : DataTransformer) (raw_data : list RawSample)
    (r : RawSample) :
  get_flag (remove_duplicates (cleaning_config self)) true = true ->
  In r (filter (passes_prefilters self) (rows (pd_DataFrame raw_data))) ->
  is_dict (labels r) = true ->
  transform_body self raw_data = Raised (TypeError "unhashable type: 'dict'").
Proof.
  intros Hdedup Hr Hdict. unfold transform_body.
  rewrite _clean_data_stages by reflexivity. cbv zeta. rewrite Hdedup.
  set (survivors := filter (passes_prefilters self) (rows (pd_DataFrame raw_data))) in *.
  assert (Hdd : drop_duplicates dedup_subset
                  (with_rows (pd_DataFrame raw_data) survivors)
                = Raised (TypeError "unhashable type: 'dict'")).
  { unfold drop_duplicates, empty. cbn [with_rows columns rows pd_DataFrame sample_keys].
    destruct survivors as [| r0 rest] eqn:Hs; [contradiction |].
    replace (filter _ dedup_subset) with (@nil string) by reflexivity.
    replace (str_in "labels" dedup_subset) with true by reflexivity.
    cbn [andb].
    replace (existsb (fun r1 => is_dict (labels r1)) (r0 :: rest)) with true;
      [reflexivity |].
    symmetry. apply existsb_exists. exists r. split; [exact Hr | exact Hdict]. }
  rewrite Hdd. reflexivity.
Qed.

(** A sample that the transformer accepts makes [transform] lose the batch
    it is in, when deduplication is enabled. *)
Lemma valid_sample_loses_batch (self : DataTransformer) (raw_data : list RawSample)
    (s : RawSample) :
  get_flag (remove_duplicates (cleaning_config self)) true = true ->
  In s raw_data ->
  valid_sample self s = true ->
  transform_body self raw_data = Raised (TypeError "unhashable type: 'dict'")
  /\ transform self raw_data = Returned [].
Proof.
  intros Hdedup Hs Hvalid.
  destruct (valid_sample_survives self raw_data s Hs Hvalid) as [Hin Hdict].
  pose proof (dict_survivor_raises self raw_data s Hdedup Hin Hdict) as Hbody.
  split; [exact Hbody | eapply transform_of_body_Raised, Hbody].
Qed.

(** X2. With deduplication enabled, a batch in which every sample has a
    dict of labels gives no point; and as soon as one of its samples passes
    the null, timestamp and allow-list filters, this is because
    [drop_duplicates] raised. *)
Theorem dict_labelled_batch_gives_no_point (self : DataTransformer)
    (raw_data : list RawSample) :
  get_flag (remove_duplicates (cleaning_config self)) true = true ->
  (forall s, In s raw_data -> labels s <> None) ->
  transform self raw_data = Returned []
  /\ ((exists r, In r (filter (passes_prefilters self) (rows (pd_DataFrame raw_data)))) ->
      transform_body self raw_data = Raised (TypeError "unhashable type: 'dict'")).
Proof.
  intros Hdedup Hdict.
  assert (Hraise : (exists r, In r (filter (passes_prefilters self)
                                      (rows (pd_DataFrame raw_data)))) ->
                   transform_body self raw_data
                   = Raised (TypeError "unhashable type: 'dict'")).
  { intros (r & Hr). apply (dict_survivor_raises self raw_data r Hdedup Hr).
    apply filter_In in Hr as [Hr _].
    apply pd_DataFrame_labels in Hr as (s & Hs & Heq).
    specialize (Hdict s Hs). rewrite Heq.
    destruct (labels s); [reflexivity | congruence]. }
  split; [| exact Hraise].
  destruct (transform_body self raw_data) as [out | e] eqn:Hbody;
    [| eapply transform_of_body_Raised, Hbody].
  rewrite (transform_of_body_Returned _ _ _ Hbody). f_equal.
  destruct (filter (passes_prefilters self) (rows (pd_DataFrame raw_data)))
    as [| r rest] eqn:Hs.
  - apply transform_body_Returned in Hbody as (df5 & Hclean & ->).
    destruct (_clean_data_rows _ _ _ Hclean) as (_ & Hrows & _).
    rewrite Hs, Hdedup in Hrows. cbn [keep_first] in Hrows.
    replace (rows df5) with (@nil RawSample)
      by (destruct (get_flag (validate_value_ranges _) true); symmetry; exact Hrows).
    reflexivity.
  - assert (Hcontra : Returned out = Raised (TypeError "unhashable type: 'dict'"))
      by (apply Hraise; exists r; left; reflexivity).
    discriminate Hcontra.
Qed.

(** ** The tags of the points *)




Lemma dict_lookup_None {V : Type} (d : dict V) (k : string) :
  dict_lookup d k = None <-> ~ In k (map fst d).
Proof.
  induction d as [| [k' v'] d IH]; simpl.
  - tauto.
  - destruct (String.eqb k' k) eqn:Heq.
    + apply String.eqb_eq in Heq. split; [discriminate | intros H; exfalso; tauto].
    + apply String.eqb_neq in Heq. rewrite IH. tauto.
Qed.

Lemma dict_lookup_Some_split {V : Type} (d : dict V) (k : string) (v : V) :
  dict_lookup d k = Some v ->
  exists l1 l2, d = l1 ++ (k, v) :: l2 /\ ~ In k (map fst l1).
Proof.
  induction d as [| [k' v'] d IH]; simpl; [discriminate |].
  destruct (String.eqb k' k) eqn:Heq.
  - apply String.eqb_eq in Heq. subst k'. intros H. injection H as ->.
    exists [], d. split; [reflexivity | intros []].
  - apply String.eqb_neq in Heq. intros H.
    destruct (IH H) as (l1 & l2 & -> & Hfresh).
    exists ((k', v') :: l1), l2. split; [reflexivity |].
    simpl. tauto.
Qed.

Section LabelTags.
Variable labels : dict string.




(** A key that the loop never writes keeps its entry. *)
Lemma add_label_tags_skips (k : string) :
  str_in k ["job"; "instance"] = true ->
  forall tags, dict_lookup (add_label_tags labels tags) k = dict_lookup tags k.
Proof.
  intros Hk. unfold add_label_tags.
  induction labels as [| [k0 v0] l IH]; cbn [fold_left fst snd];
    intros tags; [reflexivity |].
  rewrite IH.
  destruct (negb (str_in k0 ["job"; "instance"])) eqn:Hk0; [| reflexivity].
  destruct (len v0 <? 100)%nat; cbn [andb]; [| reflexivity].
  apply dict_lookup_set_other. intros ->.
  apply negb_true_iff in Hk0. congruence.
Qed.

(** The tag of a key that the loop may write: the value of the label of
    that name when it is shorter than 100, else the entry the point starts
    with. *)
Lemma add_label_tags_lookup (k : string) :
  NoDup (map fst labels) ->
  str_in k ["job"; "instance"] = false ->
  forall tags,
    dict_lookup (add_label_tags labels tags) k
    = match dict_lookup labels k with
      | Some v => if (len v <? 100)%nat then Some v else dict_lookup tags k
      | None => dict_lookup tags k
      end.
Proof.
  intros Hnodup Hk tags.
  destruct (dict_lookup labels k) as [v |] eqn:Hlook.
  - apply dict_lookup_Some_split in Hlook as (l1 & l2 & Hsplit & Hfresh1).
    assert (Hfresh2 : ~ In k (map fst l2)).
    { rewrite Hsplit, map_app in Hnodup. simpl in Hnodup.
      apply NoDup_remove_2 in Hnodup. rewrite in_app_iff in Hnodup. tauto. }
    rewrite Hsplit, add_label_tags_app.
    destruct (len v <? 100)%nat eqn:Hlen.
    + rewrite add_label_tags_short by (try assumption; apply Nat.ltb_lt, Hlen).
      rewrite add_label_tags_keeps by assumption.
      apply dict_lookup_set_same.
    + rewrite add_label_tags_long by (apply Nat.ltb_ge, Hlen).
      rewrite !add_label_tags_keeps by assumption. reflexivity.
  - apply dict_lookup_None in Hlook.
    apply add_label_tags_keeps, Hlook.
Qed.
End LabelTags.

(** ** The points that [transform] returns *)

Lemma passes_prefilters_stored_row (self : DataTransformer) (b : bool) (s : RawSample) :
  passes_prefilters self (stored_row b s) = passes_prefilters self s.
Proof.
  unfold passes_prefilters. rewrite stored_row_notna. reflexivity.
Qed.

(** Every point of a result is the point of a stored row of a sample that
    passes the three filters. *)
Lemma transform_points_from_samples (self : DataTransformer)
    (raw_data : list RawSample) (out : list StoragePoint.t) (point : StoragePoint.t) :
  transform self raw_data = Returned out ->
  In point out ->
  exists s,
    In s raw_data
    /\ passes_prefilters self s = true
    /\ point = point_of
                 (stored_row (existsb (fun s => is_float (value s)) raw_data) s).
Proof.
  intros Hout Hpoint.
  destruct (transform_body self raw_data) as [out' | e] eqn:Hbody.
  - rewrite (transform_of_body_Returned _ _ _ Hbody) in Hout.
    injection Hout as ->.
    apply transform_body_Returned in Hbody as (df5 & Hclean & ->).
    rewrite _to_influxdb_format_point_of in Hpoint.
    apply in_map_iff in Hpoint as (r & <- & Hr).
    destruct (_clean_data_rows _ _ _ Hclean) as (_ & Hrows & _).
    assert (Hsurv : In r (filter (passes_prefilters self) (rows (pd_DataFrame raw_data)))).
    { rewrite Hrows in Hr.
      assert (Hdedup : In r (if get_flag (remove_duplicates (cleaning_config self)) true
                             then keep_first dedup_subset []
                                    (filter (passes_prefilters self)
                                       (rows (pd_DataFrame raw_data)))
                             else filter (passes_prefilters self)
                                    (rows (pd_DataFrame raw_data)))).
      { destruct (get_flag (validate_value_ranges (cleaning_config self)) true);
          [apply filter_In in Hr as [Hr _] |]; exact Hr. }
      destruct (get_flag (remove_duplicates (cleaning_config self)) true);
        [| exact Hdedup].
      eapply subseq_In; [apply keep_first_subseq | exact Hdedup]. }
    apply filter_In in Hsurv as [Hin Hpass].
    rewrite pd_DataFrame_rows in Hin.
    apply in_map_iff in Hin as (s & <- & Hs).
    exists s. split; [exact Hs |]. split; [| reflexivity].
    rewrite passes_prefilters_stored_row in Hpass. exact Hpass.
  - rewrite (transform_of_body_Raised _ _ _ Hbody) in Hout.
    injection Hout as <-. destruct Hpoint.
Qed.



(** X4. The tags of the point of a row, as a map: [instance] is the label
    [instance] or [unknown]; [service] is the label [job] or [unknown] and
    [metric_type] is the metric name, unless the row has a label of that very
    name with a value shorter than 100, which then takes the place; any other
    key but [job] is a tag exactly when it is a label with a value shorter
    than 100; [job] is never a tag. *)
Theorem point_tags_lookup (row : RawSample) (lbls : dict string) :
  lbls = match labels row with Some d => d | None => [] end ->
  NoDup (map fst lbls) ->
  exists point,
    _to_influxdb_format {| columns := sample_keys; rows := [row] |} = [point]
    /\ dict_lookup (StoragePoint.tags point) "job" = None
    /\ dict_lookup (StoragePoint.tags point) "instance"
       = Some (dict_get lbls "instance" "unknown")
    /\ dict_lookup (StoragePoint.tags point) "service"
       = label_or lbls "service" (Some (dict_get lbls "job" "unknown"))
    /\ dict_lookup (StoragePoint.tags point) "metric_type"
       = label_or lbls "metric_type" (Some (metric_name row))
    /\ forall k,
         str_in k ["job"; "instance"; "service"; "metric_type"] = false ->
         dict_lookup (StoragePoint.tags point) k = label_or lbls k None.
Proof.
  intros Hlbls Hnodup. exists (point_of row).
  split; [rewrite _to_influxdb_format_point_of; reflexivity |].
  unfold point_of, label_or. cbn [StoragePoint.tags]. rewrite <- Hlbls.
  split; [rewrite add_label_tags_skips by reflexivity; reflexivity |].
  split; [rewrite add_label_tags_skips by reflexivity; reflexivity |].
  split; [rewrite add_label_tags_lookup by (try assumption; reflexivity);
          reflexivity |].
  split; [rewrite add_label_tags_lookup by (try assumption; reflexivity);
          reflexivity |].
  intros k Hk. unfold str_in in Hk. cbn [existsb] in Hk.
  apply orb_false_iff in Hk as [H1 Hk].
  apply orb_false_iff in Hk as [H2 Hk].
  apply orb_false_iff in Hk as [H3 Hk].
  apply orb_false_iff in Hk as [H4 _].
  rewrite add_label_tags_lookup;
    [| exact Hnodup | unfold str_in; cbn [existsb]; rewrite H1, H2; reflexivity].
  cbn [dict_lookup]. rewrite (String.eqb_sym "service" k), H3.
  rewrite (String.eqb_sym "instance" k), H2.
  rewrite (String.eqb_sym "metric_type" k), H4. reflexivity.
Qed.

(** ** Samples with a dict of labels under deduplication *)

(** C1, on the code. With [remove_duplicates] enabled, two samples of the
    input that have the same timestamp, metric name and labels and different
    values, and that the transformer accepts (a number, a timestamp, a metric
    of the allow-list, a dict of labels), give no point, and the batch gives
    none either: [drop_duplicates] raises [TypeError] on the dicts of the
    [labels] column and [transform] answers the empty list. *)
Theorem dedup_valid_pair_gives_no_point (self : DataTransformer)
    (raw_data : list RawSample) (s1 s2 : RawSample) :
  get_flag (remove_duplicates (cleaning_config self)) true = true ->
  In s1 raw_data ->
  In s2 raw_data ->
  same_key s1 s2 ->
  value s1 <> value s2 ->
  valid_sample self s1 = true ->
  valid_sample self s2 = true ->
  transform_body self raw_data = Raised (TypeError "unhashable type: 'dict'")
  /\ transform self raw_data = Returned [].
Proof.
  intros Hdedup Hs1 _ _ _ Hvalid _.
  apply (valid_sample_loses_batch self raw_data s1 Hdedup Hs1 Hvalid).
Qed.

(** C5, on the code. With [remove_duplicates] and range validation
    enabled, a sample that the transformer accepts and that is in the range of
    its metric (an [up] sample of value 1, say) is not kept by [transform],
    nor is any sample of its batch: [drop_duplicates] raises before range
    validation runs. Range validation alone, on the frame of that sample,
    keeps its row. *)
Theorem in_range_sample_is_not_kept (self : DataTransformer)
    (raw_data : list RawSample) (s : RawSample) :
  get_flag (remove_duplicates (cleaning_config self)) true = true ->
  get_flag (validate_value_ranges (cleaning_config self)) true = true ->
  In s raw_data ->
  valid_sample self s = true ->
  in_range s = true ->
  transform_body self raw_data = Raised (TypeError "unhashable type: 'dict'")
  /\ transform self raw_data = Returned []
  /\ _validate_value_ranges (pd_DataFrame [s]) = Returned (pd_DataFrame [s])
  /\ rows (pd_DataFrame [s]) = [s].
Proof.
  intros Hdedup _ Hs Hvalid Hrange.
  destruct (valid_sample_loses_batch self raw_data s Hdedup Hs Hvalid)
    as [Hbody Hout].
  split; [exact Hbody |]. split; [exact Hout |].
  assert (Hvalue : value_notna (value s) = true).
  { unfold valid_sample in Hvalid.
    apply andb_true_iff in Hvalid as [Hvalid _].
    apply andb_true_iff in Hvalid as [Hvalid _].
    apply andb_true_iff in Hvalid as [Hvalue _]. exact Hvalue. }
  assert (Hrows : rows (pd_DataFrame [s]) = [s]).
  { rewrite pd_DataFrame_rows. cbn [map]. rewrite stored_row_Num by exact Hvalue.
    reflexivity. }
  split; [| exact Hrows].
  unfold _validate_value_ranges.
  rewrite !in_columns_sample_keys by (try reflexivity; simpl; tauto).
  cbn [negb orb].
  destruct (apply_rules_total validation_rules (pd_DataFrame [s])) as [df' Hret].
  { intros rule r Hrule Hr. apply validators_total; [exact Hrule |].
    rewrite Hrows in Hr. destruct Hr as [<- | []].
    intros Hnone. rewrite Hnone in Hvalue. discriminate Hvalue. }
  pose proof (apply_rules_Returned _ _ _ Hret) as Hshape.
  assert (Hfilter : filter (fun r => forallb (fun rule => passes rule r)
                                             validation_rules)
                           (rows (pd_DataFrame [s]))
                    = rows (pd_DataFrame [s])).
  { rewrite Hrows. cbn [filter]. fold (in_range s). rewrite Hrange. reflexivity. }
  rewrite Hret, Hshape, Hfilter. reflexivity.
Qed.

(** C3, on the code. The extractor answers samples of which one is
    accepted by the transformer, which has [remove_duplicates] enabled, and
    the loader answers [False] to every write. Then [run_single_cycle]
    returns [True]: [transform] has lost the batch, the loader is not called,
    [cycles_completed] grows by one and [cycles_failed] and
    [total_data_points] keep their values. *)
Theorem valid_sample_cycle_skips_loader (cycle_start_time : Z) (self : ETLPipeline)
    (ex : PrometheusExtractor) (tr : DataTransformer) (ld : InfluxDBLoader)
    (raw_data : list RawSample) (s : RawSample) :
  extractor self = Some ex ->
  transformer self = Some tr ->
  loader self = Some ld ->
  get_basic_metrics ex = Returned raw_data ->
  In s raw_data ->
  valid_sample tr s = true ->
  get_flag (remove_duplicates (cleaning_config tr)) true = true ->
  (forall data, load_data ld data = Returned false) ->
  exists self',
    run_single_cycle cycle_start_time (self, [])
    = ((self', [Call_get_basic_metrics; Call_transform raw_data]), Returned true)
    /\ cycles_completed (stats self') = cycles_completed (stats self) + 1
    /\ cycles_failed (stats self') = cycles_failed (stats self)
    /\ total_data_points (stats self') = total_data_points (stats self)
    /\ last_run_time (stats self') = Some cycle_start_time.
Proof.
  intros Hex Htr _ Hraw Hs Hvalid Hdedup _.
  destruct (valid_sample_loses_batch tr raw_data s Hdedup Hs Hvalid) as [_ Hout].
  step_method. rewrite Hex. cbn [fst snd]. rewrite Hraw. cbn [fst snd app].
  destruct raw_data as [| s0 raw_data]; [destruct Hs |].
  rewrite Htr. cbn [fst snd]. rewrite Hout. cbn [fst snd app].
  eexists. split; [reflexivity |].
  cbn [stats set_stats add_cycles_completed set_last_run_time cycles_completed
       cycles_failed total_data_points last_run_time].
  repeat split.
Qed.

(** * Further properties of the pipeline *)

(** ** One cycle, whatever the collaborators do *)

Ltac cycle_cases self :=
  unfold run_single_cycle, cycle_body, Method.try_except, Method.bind,
    Method.self, Method.attr, Method.invoke, Method.update_stats, Method.ret,
    Method.raise;
  cbn [fst snd];
  destruct (extractor self) as [ex |] eqn:Hex; cbn [fst snd];
  [ destruct (get_basic_metrics ex) as [[| s raw_data] | e1] eqn:Hraw; cbn [fst snd];
    [ | destruct (transformer self) as [tr |] eqn:Htr; cbn [fst snd];
        [ destruct (transform tr (s :: raw_data)) as [[| p out] | e2] eqn:Hout;
          cbn [fst snd];
          [ | destruct (loader self) as [ld |] eqn:Hld; cbn [fst snd];
              [ destruct (load_data ld (p :: out)) as [[|] | e3] eqn:Hload;
                cbn [fst snd]
              | ]
          | ]
        | ]
    | ]
  | ].

(** The statistics after a cycle: those of a completed cycle with the
    points that it loaded, or those of a failed cycle. *)
Lemma run_single_cycle_stats (cycle_start_time : Z) (self : ETLPipeline)
    (trace : list call) :
  exists calls result loaded,
    run_single_cycle cycle_start_time (self, trace)
    = ((set_stats self
          (if result : bool
           then set_last_run_time cycle_start_time
                  (add_total_data_points loaded
                     (add_cycles_completed 1 (stats self)))
           else add_cycles_failed 1 (stats self)),
        trace ++ calls),
       Returned result)
    /\ 0 <= loaded.
Proof.
  assert (Hsame : forall s,
             set_last_run_time cycle_start_time (add_cycles_completed 1 s)
             = set_last_run_time cycle_start_time
                 (add_total_data_points 0 (add_cycles_completed 1 s))).
  { intros s. unfold set_last_run_time, add_total_data_points, add_cycles_completed.
    cbn [cycles_completed cycles_failed total_data_points last_run_time start_time].
    rewrite Z.add_0_r. reflexivity. }
  cycle_cases self; rewrite <- ?app_assoc; cbn [app].
  - exists [Call_get_basic_metrics], true, 0.
    rewrite <- Hsame. split; [reflexivity | lia].
  - exists [Call_get_basic_metrics; Call_transform (s :: raw_data)], true, 0.
    rewrite <- Hsame. split; [reflexivity | lia].
  - exists [Call_get_basic_metrics; Call_transform (s :: raw_data);
            Call_load_data (p :: out)], true, (Z.of_nat (length (p :: out))).
    split; [reflexivity | lia].
  - exists [Call_get_basic_metrics; Call_transform (s :: raw_data);
            Call_load_data (p :: out)], false, 0. split; [reflexivity | lia].
  - exists [Call_get_basic_metrics; Call_transform (s :: raw_data);
            Call_load_data (p :: out)], false, 0. split; [reflexivity | lia].
  - exists [Call_get_basic_metrics; Call_transform (s :: raw_data)], false, 0.
    split; [reflexivity | lia].
  - exists [Call_get_basic_metrics; Call_transform (s :: raw_data)], false, 0.
    split; [reflexivity | lia].
  - exists [Call_get_basic_metrics], false, 0. split; [reflexivity | lia].
  - exists [Call_get_basic_metrics], false, 0. split; [reflexivity | lia].
  - exists [], false, 0. rewrite app_nil_r. split; [reflexivity | lia].
Qed.

(** X6. [run_single_cycle] returns a boolean whatever the extractor, the
    transformer and the loader do, also when they are not set or raise. It
    counts the cycle once: as completed when it returns [True] (and then
    records the start time of the cycle and never lowers the number of data
    points), as failed when it returns [False] (and then changes nothing
    else). The components, the running flag and the start time of the
    pipeline are left alone. *)
Theorem run_single_cycle_counts_once (cycle_start_time : Z) (self : ETLPipeline)
    (trace : list call) :
  exists self' trace' result,
    run_single_cycle cycle_start_time (self, trace)
    = ((self', trace'), Returned result)
    /\ extractor self' = extractor self
    /\ transformer self' = transformer self
    /\ loader self' = loader self
    /\ running self' = running self
    /\ monitoring_config self' = monitoring_config self
    /\ start_time (stats self') = start_time (stats self)
    /\ (if result
        then cycles_completed (stats self') = cycles_completed (stats self) + 1
             /\ cycles_failed (stats self') = cycles_failed (stats self)
             /\ last_run_time (stats self') = Some cycle_start_time
             /\ total_data_points (stats self) <= total_data_points (stats self')
        else cycles_failed (stats self') = cycles_failed (stats self) + 1
             /\ cycles_completed (stats self') = cycles_completed (stats self)
             /\ last_run_time (stats self') = last_run_time (stats self)
             /\ total_data_points (stats self') = total_data_points (stats self)).
Proof.
  destruct (run_single_cycle_stats cycle_start_time self trace)
    as (calls & result & loaded & Hrun & Hloaded).
  do 3 eexists. split; [exact Hrun |].
  cbn [extractor transformer loader running monitoring_config stats set_stats].
  do 5 (split; [reflexivity |]).
  destruct result;
    cbn [add_cycles_completed add_cycles_failed add_total_data_points
         set_last_run_time cycles_completed cycles_failed total_data_points
         last_run_time start_time];
    repeat split; lia.
Qed.

(** X7. The calls of one cycle: first [get_basic_metrics], then [transform]
    on what it answered if that is not empty, then [load_data] on what
    [transform] returned if that is not empty; each at most once, so a failed
    load is not tried again. The number of data points grows by the size of
    the batch when [load_data] answered [True] on it, and in no other case. *)
Theorem run_single_cycle_call_discipline (cycle_start_time : Z) (self : ETLPipeline)
    (trace : list call) :
  exists self' calls result,
    run_single_cycle cycle_start_time (self, trace)
    = ((self', trace ++ calls), Returned result)
    /\ (exists raw_data data,
          calls = firstn (length calls)
                    [Call_get_basic_metrics; Call_transform raw_data;
                     Call_load_data data])
    /\ (forall raw_data,
          In (Call_transform raw_data) calls ->
          raw_data <> []
          /\ exists ex, extractor self = Some ex
                        /\ get_basic_metrics ex = Returned raw_data)
    /\ (forall data,
          In (Call_load_data data) calls ->
          data <> []
          /\ (exists tr raw_data,
                transformer self = Some tr
                /\ In (Call_transform raw_data) calls
                /\ transform tr raw_data = Returned data)
          /\ (exists ld, loader self = Some ld
                         /\ (result = true <-> load_data ld data = Returned true))
          /\ total_data_points (stats self')
             = total_data_points (stats self)
               + (if result then Z.of_nat (length data) else 0))
    /\ ((forall data, ~ In (Call_load_data data) calls) ->
        total_data_points (stats self') = total_data_points (stats self)).
Proof.
  cycle_cases self.
  (* no data *)
  - exists (set_stats self
              (set_last_run_time cycle_start_time
                 (add_cycles_completed 1 (stats self)))),
           [Call_get_basic_metrics], true.
    split; [reflexivity |].
    split; [exists [], []; reflexivity |].
    split; [intros r [H | []]; discriminate H |].
    split; [intros d [H | []]; discriminate H |].
    intros _. reflexivity.
  (* nothing left by the transformer *)
  - exists (set_stats self
              (set_last_run_time cycle_start_time
                 (add_cycles_completed 1 (stats self)))),
           [Call_get_basic_metrics; Call_transform (s :: raw_data)], true.
    split; [rewrite <- app_assoc; reflexivity |].
    split; [exists (s :: raw_data), []; reflexivity |].
    split.
    { intros r [H | [H | []]]; [discriminate H |]. injection H as <-.
      split; [discriminate |]. exists ex. split; [reflexivity | exact Hraw]. }
    split; [intros d [H | [H | []]]; discriminate H |].
    intros _. reflexivity.
  (* the loader answers True *)
  - exists (set_stats self
              (set_last_run_time cycle_start_time
                 (add_total_data_points (Z.of_nat (length (p :: out)))
                    (add_cycles_completed 1 (stats self))))),
           [Call_get_basic_metrics; Call_transform (s :: raw_data);
            Call_load_data (p :: out)], true.
    split; [rewrite <- !app_assoc; reflexivity |].
    split; [exists (s :: raw_data), (p :: out); reflexivity |].
    split.
    { intros r [H | [H | [H | []]]]; try discriminate H. injection H as <-.
      split; [discriminate |]. exists ex. split; [reflexivity | exact Hraw]. }
    split.
    { intros d [H | [H | [H | []]]]; try discriminate H. injection H as <-.
      split; [discriminate |]. split.
      { exists tr, (s :: raw_data). split; [reflexivity |].
        split; [right; left; reflexivity | exact Hout]. }
      split; [exists ld; split; [reflexivity | tauto] |]. reflexivity. }
    intros Hnone. exfalso. apply (Hnone (p :: out)). right. right. left. reflexivity.
  (* the loader answers False *)
  - exists (set_stats self (add_cycles_failed 1 (stats self))),
           [Call_get_basic_metrics; Call_transform (s :: raw_data);
            Call_load_data (p :: out)], false.
    split; [rewrite <- !app_assoc; reflexivity |].
    split; [exists (s :: raw_data), (p :: out); reflexivity |].
    split.
    { intros r [H | [H | [H | []]]]; try discriminate H. injection H as <-.
      split; [discriminate |]. exists ex. split; [reflexivity | exact Hraw]. }
    split.
    { intros d [H | [H | [H | []]]]; try discriminate H. injection H as <-.
      split; [discriminate |]. split.
      { exists tr, (s :: raw_data). split; [reflexivity |].
        split; [right; left; reflexivity | exact Hout]. }
      split.
      { exists ld. split; [reflexivity |]. rewrite Hload.
        split; intros H; discriminate H. }
      cbn [stats set_stats add_cycles_failed total_data_points]. lia. }
    intros _. reflexivity.
  (* the loader raises *)
  - exists (set_stats self (add_cycles_failed 1 (stats self))),
           [Call_get_basic_metrics; Call_transform (s :: raw_data);
            Call_load_data (p :: out)], false.
    split; [rewrite <- !app_assoc; reflexivity |].
    split; [exists (s :: raw_data), (p :: out); reflexivity |].
    split.
    { intros r [H | [H | [H | []]]]; try discriminate H. injection H as <-.
      split; [discriminate |]. exists ex. split; [reflexivity | exact Hraw]. }
    split.
    { intros d [H | [H | [H | []]]]; try discriminate H. injection H as <-.
      split; [discriminate |]. split.
      { exists tr, (s :: raw_data). split; [reflexivity |].
        split; [right; left; reflexivity | exact Hout]. }
      split.
      { exists ld. split; [reflexivity |]. rewrite Hload.
        split; intros H; discriminate H. }
      cbn [stats set_stats add_cycles_failed total_data_points]. lia. }
    intros _. reflexivity.
  (* no loader *)
  - exists (set_stats self (add_cycles_failed 1 (stats self))),
           [Call_get_basic_metrics; Call_transform (s :: raw_data)], false.
    split; [rewrite <- app_assoc; reflexivity |].
    split; [exists (s :: raw_data), []; reflexivity |].
    split.
    { intros r [H | [H | []]]; [discriminate H |]. injection H as <-.
      split; [discriminate |]. exists ex. split; [reflexivity | exact Hraw]. }
    split; [intros d [H | [H | []]]; discriminate H |].
    intros _. reflexivity.
  (* the transformer raises *)
  - exists (set_stats self (add_cycles_failed 1 (stats self))),
           [Call_get_basic_metrics; Call_transform (s :: raw_data)], false.
    split; [rewrite <- app_assoc; reflexivity |].
    split; [exists (s :: raw_data), []; reflexivity |].
    split.
    { intros r [H | [H | []]]; [discriminate H |]. injection H as <-.
      split; [discriminate |]. exists ex. split; [reflexivity | exact Hraw]. }
    split; [intros d [H | [H | []]]; discriminate H |].
    intros _. reflexivity.
  (* no transformer *)
  - exists (set_stats self (add_cycles_failed 1 (stats self))),
           [Call_get_basic_metrics], false.
    split; [reflexivity |].
    split; [exists [], []; reflexivity |].
    split; [intros r [H | []]; discriminate H |].
    split; [intros d [H | []]; discriminate H |].
    intros _. reflexivity.
  (* the extractor raises *)
  - exists (set_stats self (add_cycles_failed 1 (stats self))),
           [Call_get_basic_metrics], false.
    split; [reflexivity |].
    split; [exists [], []; reflexivity |].
    split; [intros r [H | []]; discriminate H |].
    split; [intros d [H | []]; discriminate H |].
    intros _. reflexivity.
  (* no extractor *)
  - exists (set_stats self (add_cycles_failed 1 (stats self))), [], false.
    split; [rewrite app_nil_r; reflexivity |].
    split; [exists [], []; reflexivity |].
    split; [intros r [] |]. split; [intros d [] |].
    intros _. reflexivity.
Qed.

(** * Properties of the loader *)

Lemma py_range_forward (stop step : Z) :
  0 < step -> 0 <= stop ->
  py_range stop step
  = Some (map (fun k => Z.of_nat k * step)
              (seq 0 (Z.to_nat ((stop + step - 1) / step)))).
Proof.
  intros Hstep Hstop. unfold py_range.
  replace (step =? 0)%Z with false by (symmetry; apply Z.eqb_neq; lia).
  replace (step >? 0) with true by (symmetry; apply Z.gtb_lt; lia).
  destruct (stop >? 0) eqn:Hpos; [reflexivity |].
  assert (stop = 0) by (pose proof (Zgt_cases stop 0) as H; rewrite Hpos in H; lia).
  subst stop. rewrite Z.div_small by lia. reflexivity.
Qed.

Lemma py_range_backward (stop step : Z) :
  step < 0 -> 0 <= stop -> py_range stop step = Some [].
Proof.
  intros Hstep Hstop. unfold py_range.
  replace (step =? 0)%Z with false by (symmetry; apply Z.eqb_neq; lia).
  replace (step >? 0) with false
    by (symmetry; pose proof (Zgt_cases step 0) as H; destruct (step >? 0); [lia | reflexivity]).
  replace (stop <? 0)%Z with false by (symmetry; apply Z.ltb_ge; lia).
  reflexivity.
Qed.

Lemma slice_chunk {A : Type} (data : list A) (k : nat) (size : Z) :
  0 < size ->
  slice data (Z.of_nat k * size) (Z.of_nat k * size + size)
  = firstn (Z.to_nat size) (skipn (k * Z.to_nat size) data).
Proof.
  intros Hsize. unfold slice. f_equal; [f_equal; lia |]. f_equal. nia.
Qed.

Lemma skipn_add {A : Type} (n m : nat) (l : list A) :
  skipn (n + m) l = skipn m (skipn n l).
Proof.
  revert l. induction n as [| n IH]; intros l; [reflexivity |].
  destruct l as [| x l]; simpl; [destruct m; reflexivity | apply IH].
Qed.

(** The chunks of [size] elements of a list, put together, give the list. *)
Lemma chunks_concat {A : Type} (size : nat) :
  (0 < size)%nat ->
  forall (n : nat) (data : list A),
    (length data <= n * size)%nat ->
    concat (map (fun k => firstn size (skipn (k * size) data)) (seq 0 n)) = data.
Proof.
  intros Hsize. induction n as [| n IH]; intros data Hlen.
  - destruct data; [reflexivity | simpl in Hlen; lia].
  - cbn [seq map concat]. rewrite <- seq_shift, map_map.
    cbn [Nat.mul Nat.add skipn].
    transitivity (firstn size data ++ skipn size data); [| apply firstn_skipn].
    f_equal.
    etransitivity;
      [| apply (IH (skipn size data)); rewrite length_skipn; simpl in Hlen; lia].
    f_equal. apply map_ext. intros k.
    replace (S k * size)%nat with (size + k * size)%nat by lia.
    rewrite skipn_add. reflexivity.
Qed.

Lemma ceil_covers (held size : Z) :
  0 < size -> 0 <= held -> held <= (held + size - 1) / size * size.
Proof.
  intros Hsize Hlen.
  pose proof (Z.div_mod (held + size - 1) size ltac:(lia)) as Hdm.
  pose proof (Z.mod_pos_bound (held + size - 1) size Hsize) as Hmod.
  nia.
Qed.

(** The batches of [load_data], put together, are the data. *)
Lemma batches_concat {A : Type} (data : list A) (size : Z) (starts : list Z) :
  0 < size ->
  py_range (Z.of_nat (length data)) size = Some starts ->
  concat (map (fun i => slice data i (i + size)) starts) = data.
Proof.
  intros Hsize Hrange. rewrite py_range_forward in Hrange by lia.
  injection Hrange as <-. rewrite map_map.
  rewrite (map_ext _ (fun k => firstn (Z.to_nat size) (skipn (k * Z.to_nat size) data)))
    by (intros k; apply slice_chunk, Hsize).
  apply chunks_concat; [lia |].
  pose proof (ceil_covers (Z.of_nat (length data)) size Hsize ltac:(lia)) as Hc.
  assert (0 <= (Z.of_nat (length data) + size - 1) / size)
    by (apply Z.div_pos; lia).
  nia.
Qed.

Lemma slice_length {A : Type} (data : list A) (i size : Z) :
  0 < size -> Z.of_nat (length (slice data i (i + size))) <= size.
Proof.
  intros Hsize. unfold slice.
  pose proof (firstn_le_length (Z.to_nat (i + size - i)) (skipn (Z.to_nat i) data)).
  rewrite length_firstn. lia.
Qed.

Ltac nothing_written :=
  split; [reflexivity |]; split; [constructor |]; split; [reflexivity |];
  split; [intros H; discriminate H |];
  split; [intros _ H; discriminate H | intros _ _; split; reflexivity].

Section LoaderProperties.
Variables Item Point : Type.
Variable make_point : Item -> option Point.
Variable initialize_client : bool.
Variable write : list (list Point) -> list Point -> bool.

Lemma points_of_app (l1 l2 : list Item) :
  Loader.points_of Item Point make_point (l1 ++ l2)
  = Loader.points_of Item Point make_point l1
    ++ Loader.points_of Item Point make_point l2.
Proof. unfold Loader.points_of. apply flat_map_app. Qed.

Lemma points_of_concat (batches : list (list Item)) :
  Loader.points_of Item Point make_point (concat batches)
  = concat (map (Loader.points_of Item Point make_point) batches).
Proof.
  induction batches as [| b batches IH]; [reflexivity |].
  cbn [concat map]. rewrite points_of_app, IH. reflexivity.
Qed.

Lemma points_of_length (batch : list Item) :
  (length (Loader.points_of Item Point make_point batch) <= length batch)%nat.
Proof.
  unfold Loader.points_of. induction batch as [| item batch IH]; [simpl; lia |].
  cbn [flat_map]. rewrite length_app.
  destruct (make_point item); simpl; lia.
Qed.

(** What the loop over the batches leaves: the batches written are the
    points of a first part of the batches, without the empty ones; all of
    them when no write raised. *)
Lemma write_batches_prefix (batches : list (list Item)) :
  forall written total_loaded,
    exists new rest,
      fst (Loader.write_batches Item Point make_point write batches written total_loaded)
      = written ++ new
      /\ concat (map (Loader.points_of Item Point make_point) batches)
         = concat new ++ rest
      /\ Forall (fun b => b <> []
                          /\ exists batch, In batch batches
                               /\ b = Loader.points_of Item Point make_point batch) new
      /\ match snd (Loader.write_batches Item Point make_point write batches
                      written total_loaded) with
         | Some total => rest = []
                         /\ total = total_loaded + Z.of_nat (length (concat new))
         | None => exists before points,
                     rest <> [] /\ write (written ++ before) points = false
         end.
Proof.
  induction batches as [| batch batches IH]; intros written total_loaded.
  - exists [], []. cbn. rewrite app_nil_r. repeat split; [constructor | lia].
  - cbn [Loader.write_batches map concat].
    destruct (Loader.points_of Item Point make_point batch) as [| p points] eqn:Hpoints.
    + destruct (IH written total_loaded) as (new & rest & Hw & Hc & Hall & Hr).
      exists new, rest. split; [exact Hw |]. split; [exact Hc |]. split; [| exact Hr].
      eapply Forall_impl; [| exact Hall].
      intros b (Hne & batch' & Hin & Hb). split; [exact Hne |].
      exists batch'. split; [right; exact Hin | exact Hb].
    + destruct (write written (p :: points)) eqn:Hwrite.
      * destruct (IH (written ++ [p :: points])
                     (total_loaded + Z.of_nat (length (p :: points))))
          as (new & rest & Hw & Hc & Hall & Hr).
        exists ((p :: points) :: new), rest.
        split; [rewrite Hw, <- app_assoc; reflexivity |].
        split; [cbn [concat]; rewrite Hc, app_assoc; reflexivity |].
        split.
        { constructor.
          - split; [discriminate |]. exists batch. split; [left; reflexivity |].
            symmetry. exact Hpoints.
          - eapply Forall_impl; [| exact Hall].
            intros b (Hne & batch' & Hin & Hb). split; [exact Hne |].
            exists batch'. split; [right; exact Hin | exact Hb]. }
        destruct (snd (Loader.write_batches Item Point make_point write batches _ _)).
        { destruct Hr as [-> ->]. split; [reflexivity |].
          cbn [concat]. rewrite !length_app. cbn [length]. lia. }
        { destruct Hr as (before & pts & Hrest & Hfail).
          exists ((p :: points) :: before), pts. split; [exact Hrest |].
          rewrite <- Hfail. f_equal. rewrite <- app_assoc. reflexivity. }
      * exists [], ((p :: points)
                    ++ concat (map (Loader.points_of Item Point make_point) batches)).
        cbn [fst snd concat app]. rewrite app_nil_r.
        split; [reflexivity |]. split; [reflexivity |]. split; [constructor |].
        exists [], (p :: points). split; [discriminate |].
        rewrite app_nil_r. exact Hwrite.
Qed.

(** X8. [load_data] writes the points of the data in their order, in
    batches that are not empty and hold at most [batch_size] points, and what
    it has written when a write fails stays written: the batches written are
    always a first part of the points. It answers [True] on the empty list
    without writing or setting up the client; on other data it answers
    [True] only when all points are written and there is at least one. With
    a batch size of zero or less it writes nothing and answers [False]. *)
Theorem load_data_writes_in_order (self : Loader.t) (data : list Item) :
  exists self' written result rest,
    Loader.load_data Item Point make_point initialize_client write self data
    = (self', written, result)
    /\ Loader.points_of Item Point make_point data = concat written ++ rest
    /\ Forall (fun b => b <> []
                        /\ Z.of_nat (length b) <= Loader.batch_size self) written
    /\ Loader.batch_size self' = Loader.batch_size self
    /\ (data = [] -> result = true /\ written = [] /\ self' = self)
    /\ (data <> [] -> result = true -> rest = [] /\ written <> [])
    /\ (data <> [] -> Loader.batch_size self <= 0 ->
        result = false /\ written = []).
Proof.
  unfold Loader.load_data.
  destruct data as [| item data].
  { exists self, [], true, []. split; [reflexivity |]. split; [reflexivity |].
    split; [constructor |]. split; [reflexivity |].
    split; [intros _; repeat split |].
    split; intros H; contradiction H; reflexivity. }
  set (all := item :: data).
  destruct (negb (Loader.client self) && negb initialize_client).
  { exists self, [], false, (Loader.points_of Item Point make_point all).
    split; [reflexivity |]. nothing_written. }
  cbn [Loader.batch_size].
  destruct (Z.lt_trichotomy (Loader.batch_size self) 0) as [Hneg | [Hzero | Hpos]].
  - rewrite py_range_backward by lia. cbn [map Loader.write_batches].
    eexists _, [], false, _. split; [reflexivity |]. nothing_written.
  - rewrite Hzero. cbn [py_range Z.eqb].
    eexists _, [], false, _. split; [reflexivity |]. nothing_written.
  - destruct (py_range (Z.of_nat (length all)) (Loader.batch_size self))
      as [starts |] eqn:Hrange;
      [| rewrite py_range_forward in Hrange by lia; discriminate Hrange].
    set (batches := map (fun i => slice all i (i + Loader.batch_size self)) starts).
    destruct (write_batches_prefix batches [] 0) as (new & rest & Hw & Hc & Hall & Hr).
    assert (Hpoints : Loader.points_of Item Point make_point all = concat new ++ rest).
    { rewrite <- Hc, <- points_of_concat. unfold batches.
      rewrite (batches_concat all _ _ Hpos Hrange). reflexivity. }
    assert (Hsizes : Forall (fun b => b <> []
                               /\ Z.of_nat (length b) <= Loader.batch_size self) new).
    { eapply Forall_impl; [| exact Hall].
      intros b (Hne & batch & Hin & ->). split; [exact Hne |].
      unfold batches in Hin. apply in_map_iff in Hin as (i & <- & _).
      pose proof (points_of_length (slice all i (i + Loader.batch_size self))).
      pose proof (slice_length all i _ Hpos). lia. }
    destruct (Loader.write_batches Item Point make_point write batches [] 0)
      as [written [total |]] eqn:Hloop;
      cbn [fst snd app] in Hw, Hr; subst written.
    + destruct Hr as [-> Htotal].
      eexists _, new, (total >? 0), []. split; [reflexivity |].
      split; [exact Hpoints |]. split; [exact Hsizes |]. split; [reflexivity |].
      split; [intros H; discriminate H |]. split; [| intros _ H; lia].
      intros _ Hres. split; [reflexivity |].
      intros ->. cbn in Htotal. subst total. discriminate Hres.
    + eexists _, new, false, rest. split; [reflexivity |].
      split; [exact Hpoints |]. split; [exact Hsizes |]. split; [reflexivity |].
      split; [intros H; discriminate H |].
      split; [intros _ H; discriminate H | intros _ H; lia].
Qed.

Lemma points_of_all (batch : list Item) :
  (forall item, In item batch -> make_point item <> None) ->
  length (Loader.points_of Item Point make_point batch) = length batch.
Proof.
  unfold Loader.points_of. induction batch as [| item batch IH]; intros Hall;
    [reflexivity |].
  cbn [flat_map]. rewrite length_app, IH by (intros i Hi; apply Hall; right; exact Hi).
  destruct (make_point item) eqn:Hitem; [reflexivity |].
  exfalso. apply (Hall item); [left; reflexivity | exact Hitem].
Qed.

Lemma write_batches_all_written (batches : list (list Item)) :
  (forall written points, write written points = true) ->
  (forall batch, In batch batches ->
                 Loader.points_of Item Point make_point batch <> []) ->
  forall written total_loaded,
    Loader.write_batches Item Point make_point write batches written total_loaded
    = (written ++ map (Loader.points_of Item Point make_point) batches,
       Some (total_loaded
             + Z.of_nat (length (concat (map (Loader.points_of Item Point make_point)
                                            batches))))).
Proof.
  intros Hwrite. induction batches as [| batch batches IH]; intros Hne written total.
  - cbn. rewrite app_nil_r. f_equal. f_equal. lia.
  - cbn [Loader.write_batches map concat].
    destruct (Loader.points_of Item Point make_point batch) as [| p points] eqn:Hp.
    + exfalso. apply (Hne batch); [left; reflexivity | exact Hp].
    + rewrite Hwrite, IH by (intros b Hb; apply Hne; right; exact Hb).
      f_equal; [rewrite <- app_assoc; reflexivity |]. f_equal.
      rewrite length_app. cbn [length]. lia.
Qed.

Lemma slice_In {A : Type} (data : list A) (i j : Z) (x : A) :
  In x (slice data i j) -> In x data.
Proof.
  unfold slice. intros H.
  rewrite <- (firstn_skipn (Z.to_nat i) data). apply in_or_app. right.
  rewrite <- (firstn_skipn (Z.to_nat (j - i)) (skipn (Z.to_nat i) data)).
  apply in_or_app. left. exact H.
Qed.

(** The batches of [load_data] are not empty. *)
Lemma batches_not_empty {A : Type} (data : list A) (size : Z) (starts : list Z) (i : Z) :
  0 < size ->
  py_range (Z.of_nat (length data)) size = Some starts ->
  In i starts ->
  slice data i (i + size) <> [].
Proof.
  intros Hsize Hrange Hi. rewrite py_range_forward in Hrange by lia.
  injection Hrange as <-. apply in_map_iff in Hi as (k & <- & Hk).
  apply in_seq in Hk. rewrite slice_chunk by exact Hsize.
  intros Hnil. apply (f_equal (@length A)) in Hnil.
  rewrite length_firstn, length_skipn in Hnil. cbn [length] in Hnil.
  set (held := Z.of_nat (length data)) in *.
  assert (Hcount : 0 <= (held + size - 1) / size) by (apply Z.div_pos; unfold held; lia).
  pose proof (Z.mul_div_le (held + size - 1) size Hsize) as Hle.
  assert (Hlt : Z.of_nat k * size < held) by nia.
  unfold held in Hlt. nia.
Qed.

(** X9. With a positive batch size, a client that is or can be set up,
    items that all give a point and writes that all succeed, [load_data]
    answers [True] on data that is not empty, after writing every point
    once, in order, in the least number of batches of at most [batch_size]
    points. *)
Theorem load_data_loads_everything (self : Loader.t) (data : list Item) :
  0 < Loader.batch_size self ->
  Loader.client self = true \/ initialize_client = true ->
  (forall written points, write written points = true) ->
  (forall item, In item data -> make_point item <> None) ->
  data <> [] ->
  exists self' written,
    Loader.load_data Item Point make_point initialize_client write self data
    = (self', written, true)
    /\ Loader.client self' = true
    /\ concat written = Loader.points_of Item Point make_point data
    /\ length (concat written) = length data
    /\ Z.of_nat (length written)
       = (Z.of_nat (length data) + Loader.batch_size self - 1) / Loader.batch_size self.
Proof.
  intros Hsize Hclient Hwrite Hall Hdata. unfold Loader.load_data.
  destruct data as [| item data]; [contradiction Hdata; reflexivity |].
  set (all := item :: data) in *.
  replace (negb (Loader.client self) && negb initialize_client) with false
    by (destruct Hclient as [-> | ->]; [| rewrite andb_false_r]; reflexivity).
  cbn [Loader.batch_size].
  destruct (py_range (Z.of_nat (length all)) (Loader.batch_size self))
    as [starts |] eqn:Hrange;
    [| rewrite py_range_forward in Hrange by lia; discriminate Hrange].
  set (batches := map (fun i => slice all i (i + Loader.batch_size self)) starts).
  assert (Hne : forall batch, In batch batches ->
                              Loader.points_of Item Point make_point batch <> []).
  { intros batch Hin Hnil. unfold batches in Hin.
    apply in_map_iff in Hin as (i & <- & Hi).
    apply (batches_not_empty all _ _ _ Hsize Hrange Hi).
    apply (f_equal (@length Point)) in Hnil.
    rewrite points_of_all in Hnil
      by (intros x Hx; apply Hall; eapply slice_In; exact Hx).
    apply length_zero_iff_nil. exact Hnil. }
  rewrite (write_batches_all_written batches Hwrite Hne). cbn [app].
  assert (Hconcat : concat (map (Loader.points_of Item Point make_point) batches)
                    = Loader.points_of Item Point make_point all).
  { rewrite <- points_of_concat. unfold batches.
    rewrite (batches_concat all _ _ Hsize Hrange). reflexivity. }
  rewrite Hconcat, (points_of_all all Hall).
  eexists _, _. split.
  { f_equal; try (apply Z.gtb_lt; unfold all; cbn [length]; lia). }
  split; [reflexivity |]. split; [exact Hconcat |].
  split; [rewrite Hconcat; apply points_of_all, Hall |].
  unfold batches. rewrite !length_map.
  rewrite py_range_forward in Hrange by lia. injection Hrange as <-.
  rewrite length_map, length_seq. apply Z2Nat.id, Z.div_pos; lia.
Qed.
End LoaderProperties.

(** ** The validator of the loader on the points of the transformer *)

Lemma validate_items_datetime (point : StoragePoint.t) (rest : list (dict pyval)) :
  validate_items (item_of_point point :: rest) = false.
Proof.
  cbn [validate_items]. unfold item_of_point.
  replace (dict_lookup _ "measurement")
    with (Some (PStr (StoragePoint.measurement point))) by reflexivity.
  replace (dict_lookup _ "fields")
    with (Some (PDict (map (fun kv => (fst kv, pyval_of_value (snd kv)))
                           (StoragePoint.fields point)))) by reflexivity.
  replace (dict_lookup _ "timestamp")
    with (Some match StoragePoint.timestamp point with
               | Some seconds => PDatetime seconds
               | None => PNone
               end) by reflexivity.
  destruct (negb (is_str _) || negb (truthy _)); [reflexivity |].
  destruct (negb (is_dict_value _) || negb (truthy _)); [reflexivity |].
  destruct (StoragePoint.timestamp point); reflexivity.
Qed.

(** X10. [validate_data_format] of the loader rejects every result of
    [transform] that is not empty: the timestamp of a point is a
    [datetime] (or [None]), and the validator wants a [str], an [int] or a
    [float]. Nothing else is wrong with the points: with the number of
    seconds in the place of the [datetime] every result is accepted. *)
Theorem validate_data_format_rejects_transform (self : DataTransformer)
    (raw_data : list RawSample) (out : list StoragePoint.t) :
  transform self raw_data = Returned out ->
  (validate_data_format (map item_of_point out) = true <-> out = [])
  /\ validate_data_format (map item_with_epoch_seconds out) = true.
Proof.
  intros Hout. split.
  - destruct out as [| point out]; [split; reflexivity |].
    cbn [map validate_data_format]. rewrite validate_items_datetime.
    split; discriminate.
  - assert (Hall : forall point, In point out ->
                     StoragePoint.measurement point = "health_metrics"
                     /\ exists v, StoragePoint.fields point = [("value", v)]).
    { intros point Hpoint.
      destruct (transform_points_from_samples _ _ _ _ Hout Hpoint) as (s & _ & _ & ->).
      split; [reflexivity |]. eexists. reflexivity. }
    assert (Hitems : validate_items (map item_with_epoch_seconds out) = true).
    { clear Hout. induction out as [| point out IH]; [reflexivity |].
      destruct (Hall point (or_introl eq_refl)) as (Hm & v & Hf).
      cbn [map validate_items]. unfold item_with_epoch_seconds, item_of_point.
      rewrite Hm, Hf. cbn [map fst snd].
      replace (dict_lookup _ "measurement") with (Some (PStr "health_metrics"))
        by reflexivity.
      replace (dict_lookup _ "fields")
        with (Some (PDict [("value", pyval_of_value v)])) by reflexivity.
      replace (dict_lookup _ "timestamp")
        with (Some (PInt match StoragePoint.timestamp point with
                         | Some seconds => seconds
                         | None => 0
                         end)) by reflexivity.
      cbn [is_str truthy is_dict_value is_str_int_float negb orb].
      replace (String.eqb "health_metrics" "") with false by reflexivity.
      cbn [negb orb]. apply IH. intros p Hp. apply Hall. right. exact Hp. }
    destruct out; [reflexivity | exact Hitems].
Qed.

(** * Properties of the extractor *)

Lemma retry_loop_first_success (retry_attempts : Z)
    (responses : nat -> Extractor.attempt) :
  forall remaining attempt,
    Z.of_nat (attempt + remaining) = Z.max retry_attempts 0 ->
    (forall i, (i < attempt)%nat -> failed (responses i)) ->
    exists result requests,
      Extractor.retry_loop retry_attempts responses attempt remaining
      = (result, requests)
      /\ (attempt <= requests <= attempt + remaining)%nat
      /\ (forall i, (S i < requests)%nat -> failed (responses i))
      /\ ((exists last, requests = S last
                        /\ responses last = Extractor.Success result)
          \/ (result = []
              /\ requests = (attempt + remaining)%nat
              /\ forall i, (i < requests)%nat -> failed (responses i))).
Proof.
  induction remaining as [| remaining IH]; intros attempt Hsum Hfailed.
  - exists [], attempt. cbn [Extractor.retry_loop].
    split; [reflexivity |]. split; [lia |].
    split; [intros i Hi; apply Hfailed; lia |].
    right. split; [reflexivity |]. split; [lia | exact Hfailed].
  - cbn [Extractor.retry_loop].
    assert (Hnext : forall i, (i < S attempt)%nat -> failed (responses attempt) ->
                              failed (responses i)).
    { intros i Hi Ha. destruct (Nat.eq_dec i attempt) as [-> | Hne];
        [exact Ha | apply Hfailed; lia]. }
    assert (Hfail : failed (responses attempt) ->
              exists result requests,
                (if (Z.of_nat attempt =? retry_attempts - 1)%Z
                 then ([], S attempt)
                 else Extractor.retry_loop retry_attempts responses (S attempt)
                        remaining)
                = (result, requests)
                /\ (attempt <= requests <= attempt + S remaining)%nat
                /\ (forall i, (S i < requests)%nat -> failed (responses i))
                /\ ((exists last, requests = S last
                                  /\ responses last = Extractor.Success result)
                    \/ (result = []
                        /\ requests = (attempt + S remaining)%nat
                        /\ forall i, (i < requests)%nat -> failed (responses i)))).
    { intros Ha.
      destruct (Z.of_nat attempt =? retry_attempts - 1)%Z eqn:Hlast.
      - apply Z.eqb_eq in Hlast. exists [], (S attempt).
        split; [reflexivity |]. split; [lia |].
        split; [intros i Hi; apply Hfailed; lia |].
        right. split; [reflexivity |]. split; [lia |].
        intros i Hi. apply Hnext; [exact Hi | exact Ha].
      - destruct (IH (S attempt)) as (result & requests & Hloop & Hb & Hbefore & Hres).
        + rewrite <- Hsum. f_equal. lia.
        + intros i Hi. apply Hnext; [exact Hi | exact Ha].
        + exists result, requests. split; [exact Hloop |]. split; [lia |].
          split; [exact Hbefore |].
          destruct Hres as [Hres | (Hnil & Hreq & Hall)]; [left; exact Hres |].
          right. split; [exact Hnil |]. split; [lia | exact Hall]. }
    destruct (responses attempt) as [result | msg |] eqn:Hresp.
    + exists result, (S attempt). split; [reflexivity |]. split; [lia |].
      split; [intros i Hi; apply Hfailed; lia |].
      left. exists attempt. split; [reflexivity | exact Hresp].
    + apply Hfail. exact I.
    + apply Hfail. exact I.
Qed.

(** X11. [extract_metrics] makes at most [retry_attempts] requests, one
    after the other, and stops at the first one that succeeds, whose samples
    it returns. When every request fails (or [retry_attempts] is not
    positive) it returns the empty list after [retry_attempts] requests (no
    request): the caller cannot tell a failure from the absence of data. *)
Theorem extract_metrics_first_success (retry_attempts : Z)
    (responses : nat -> Extractor.attempt) :
  exists result requests,
    Extractor.extract_metrics retry_attempts responses = (result, requests)
    /\ Z.of_nat requests <= Z.max retry_attempts 0
    /\ (forall i, (S i < requests)%nat -> failed (responses i))
    /\ ((exists last, requests = S last
                      /\ responses last = Extractor.Success result)
        \/ (result = []
            /\ Z.of_nat requests = Z.max retry_attempts 0
            /\ forall i, (i < requests)%nat -> failed (responses i))).
Proof.
  unfold Extractor.extract_metrics.
  destruct (retry_loop_first_success retry_attempts responses
              (Z.to_nat retry_attempts) 0)
    as (result & requests & Hloop & Hb & Hbefore & Hres).
  - cbn [Nat.add]. lia.
  - intros i Hi. lia.
  - exists result, requests. split; [exact Hloop |].
    split; [lia |]. split; [exact Hbefore |].
    destruct Hres as [Hres | (Hnil & Hreq & Hall)]; [left; exact Hres |].
    right. split; [exact Hnil |]. split; [lia | exact Hall].
Qed.

Lemma extract_metrics_all_failed (retry_attempts : Z)
    (responses : nat -> Extractor.attempt) :
  (forall i, failed (responses i)) ->
  Extractor.extract_metrics retry_attempts responses = ([], Z.to_nat retry_attempts).
Proof.
  intros Hfailed. unfold Extractor.extract_metrics.
  destruct (retry_loop_first_success retry_attempts responses
              (Z.to_nat retry_attempts) 0)
    as (result & requests & Hloop & _ & _ & Hres).
  - cbn [Nat.add]. lia.
  - intros i Hi. lia.
  - rewrite Hloop. destruct Hres as [(last & _ & Hlast) | (-> & -> & _)].
    + specialize (Hfailed last). rewrite Hlast in Hfailed. destruct Hfailed.
    + reflexivity.
Qed.

(** X12. When no request to Prometheus succeeds, [get_basic_metrics] has
    tried each of its four queries [retry_attempts] times and returns the
    empty list without raising; the cycle of a pipeline with this extractor
    then returns [True] and counts as completed, and neither the transformer
    nor the loader is called. *)
Theorem prometheus_down_is_a_completed_cycle (retry_attempts : Z)
    (http : string -> nat -> Extractor.attempt) (cycle_start_time : Z)
    (self : ETLPipeline) (trace : list call) :
  (forall query i, In query Extractor.queries -> failed (http query i)) ->
  extractor self = Some (extractor_of retry_attempts http) ->
  Extractor.get_basic_metrics retry_attempts http
  = ([], (4 * Z.to_nat retry_attempts)%nat)
  /\ run_single_cycle cycle_start_time (self, trace)
     = ((set_stats self
           (set_last_run_time cycle_start_time (add_cycles_completed 1 (stats self))),
         trace ++ [Call_get_basic_metrics]),
        Returned true).
Proof.
  intros Hdown Hex.
  assert (Hget : Extractor.get_basic_metrics retry_attempts http
                 = ([], (4 * Z.to_nat retry_attempts)%nat)).
  { unfold Extractor.get_basic_metrics, Extractor.queries.
    cbn [fold_left].
    rewrite !extract_metrics_all_failed
      by (intros i; apply Hdown; unfold Extractor.queries; simpl; tauto).
    cbn [fst snd app]. f_equal. lia. }
  split; [exact Hget |].
  step_method. rewrite Hex. cbn [fst snd]. unfold extractor_of.
  cbn [get_basic_metrics]. rewrite Hget. reflexivity.
Qed.

(** ** The loop of [run_continuous] *)








(** * The further theorems at concrete inputs *)

(** Deduplication off: the sample of the end-to-end scenario, then an [up]
    sample of value 2 that the range rule rejects. *)
Lemma transform_without_dedup_is_per_sample_witness :
  transform transformer_without_dedup [end_to_end_sample 1700000000]
  = Returned [end_to_end_point 1700000000]
  /\ exists out1 out2,
       transform transformer_without_dedup [end_to_end_sample 1700000000]
       = Returned out1
       /\ transform transformer_without_dedup [range_sample "up" 2] = Returned out2
       /\ transform transformer_without_dedup
            [end_to_end_sample 1700000000; range_sample "up" 2]
          = Returned (out1 ++ out2).
Proof.
  apply (transform_without_dedup_is_per_sample transformer_without_dedup
           [end_to_end_sample 1700000000] [range_sample "up" 2]);
    reflexivity.
Defined.

(** The default transformer on the sample of the end-to-end scenario. *)
Lemma dict_labelled_batch_gives_no_point_witness :
  transform default_transformer [end_to_end_sample 1700000000] = Returned []
  /\ transform_body default_transformer [end_to_end_sample 1700000000]
     = Raised (TypeError "unhashable type: 'dict'").
Proof.
  destruct (dict_labelled_batch_gives_no_point default_transformer
              [end_to_end_sample 1700000000] eq_refl) as [Hnone Hraise].
  - intros s [<- | []]. discriminate.
  - split; [exact Hnone |]. apply Hraise.
    exists (end_to_end_sample 1700000000). left. reflexivity.
Defined.


(** A label [service] takes the place of the [job], a label [metric_type]
    of 100 characters does not take the place of the metric name. *)
Lemma point_tags_lookup_witness :
  exists point,
    _to_influxdb_format {| columns := sample_keys; rows := [sample_with_tag_labels] |}
    = [point]
    /\ dict_lookup (StoragePoint.tags point) "service" = Some "billing"
    /\ dict_lookup (StoragePoint.tags point) "metric_type" = Some "up"
    /\ dict_lookup (StoragePoint.tags point) "team" = Some "core"
    /\ dict_lookup (StoragePoint.tags point) "job" = None.
Proof.
  destruct (point_tags_lookup sample_with_tag_labels _ eq_refl)
    as (point & Hpoint & Hjob & _ & Hservice & Htype & Hother).
  - repeat constructor; simpl; intuition discriminate.
  - exists point. split; [exact Hpoint |].
    split; [exact Hservice |]. split; [exact Htype |].
    split; [exact (Hother "team" eq_refl) | exact Hjob].
Defined.

(** Five points in batches of two: three writes. *)
Lemma load_data_loads_everything_witness :
  exists self' written,
    Loader.load_data StoragePoint.t StoragePoint.t Some true (fun _ _ => true)
      loader_of_two five_points
    = (self', written, true)
    /\ concat written = five_points
    /\ Z.of_nat (length written) = 3.
Proof.
  destruct (load_data_loads_everything StoragePoint.t StoragePoint.t Some true
              (fun _ _ => true) loader_of_two five_points)
    as (self' & written & Hload & _ & Hconcat & _ & Hcount).
  - reflexivity.
  - right. reflexivity.
  - reflexivity.
  - discriminate.
  - discriminate.
  - exists self', written. split; [exact Hload |]. split; [| exact Hcount].
    rewrite Hconcat. reflexivity.
Defined.

(** The point of the end-to-end scenario, deduplication off. *)
Lemma validate_data_format_rejects_transform_witness :
  validate_data_format (map item_of_point [end_to_end_point 1700000000]) = false
  /\ validate_data_format (map item_with_epoch_seconds [end_to_end_point 1700000000])
     = true.
Proof.
  destruct (validate_data_format_rejects_transform transformer_without_dedup
              [end_to_end_sample 1700000000] [end_to_end_point 1700000000] eq_refl)
    as [Hiff Hepoch].
  split; [| exact Hepoch].
  destruct (validate_data_format (map item_of_point [end_to_end_point 1700000000]));
    [| reflexivity].
  destruct Hiff as [Hnil _]. discriminate (Hnil eq_refl).
Defined.

(** Three attempts for each query, every request fails. *)
Lemma prometheus_down_is_a_completed_cycle_witness :
  Extractor.get_basic_metrics 3 (fun _ _ => Extractor.RequestFailed) = ([], 12%nat)
  /\ run_single_cycle 1700000000 (pipeline_with_prometheus_down, [])
     = ((set_stats pipeline_with_prometheus_down
           (set_last_run_time 1700000000 (add_cycles_completed 1 initial_stats)),
         [Call_get_basic_metrics]),
        Returned true).
Proof.
  apply (prometheus_down_is_a_completed_cycle 3 (fun _ _ => Extractor.RequestFailed)
           1700000000 pipeline_with_prometheus_down []).
  - intros query i _. exact I.
  - reflexivity.
Defined.

(** Two [up] samples of one key with the labels of the end-to-end scenario
    and the values 1 and 0. *)
Lemma dedup_valid_pair_gives_no_point_witness :
  transform_body default_transformer
    [labelled_up 1700000000 1; labelled_up 1700000000 0]
  = Raised (TypeError "unhashable type: 'dict'")
  /\ transform default_transformer
       [labelled_up 1700000000 1; labelled_up 1700000000 0]
     = Returned [].
Proof.
  apply (dedup_valid_pair_gives_no_point default_transformer
           [labelled_up 1700000000 1; labelled_up 1700000000 0]
           (labelled_up 1700000000 1) (labelled_up 1700000000 0)).
  - reflexivity.
  - left. reflexivity.
  - right. left. reflexivity.
  - repeat split.
  - discriminate.
  - reflexivity.
  - reflexivity.
Defined.

(** An [up] sample of value 1, alone in its batch. *)
Lemma in_range_sample_is_not_kept_witness :
  transform_body default_transformer [range_sample "up" 1]
  = Raised (TypeError "unhashable type: 'dict'")
  /\ transform default_transformer [range_sample "up" 1] = Returned []
  /\ _validate_value_ranges (pd_DataFrame [range_sample "up" 1])
     = Returned (pd_DataFrame [range_sample "up" 1])
  /\ rows (pd_DataFrame [range_sample "up" 1]) = [range_sample "up" 1].
Proof.
  apply (in_range_sample_is_not_kept default_transformer
           [range_sample "up" 1] (range_sample "up" 1)).
  - reflexivity.
  - reflexivity.
  - left. reflexivity.
  - reflexivity.
  - reflexivity.
Defined.

(** A first cycle with the sample of the end-to-end scenario, the default
    transformer and a loader that reports failure. *)
Lemma valid_sample_cycle_skips_loader_witness :
  exists self',
    run_single_cycle 1700000000 (default_pipeline_with_failing_loader, [])
    = ((self',
        [Call_get_basic_metrics; Call_transform [end_to_end_sample 1700000000]]),
       Returned true)
    /\ cycles_completed (stats self') = 1
    /\ cycles_failed (stats self') = 0
    /\ total_data_points (stats self') = 0
    /\ last_run_time (stats self') = Some 1700000000.
Proof.
  apply (valid_sample_cycle_skips_loader 1700000000
           default_pipeline_with_failing_loader
           {| get_basic_metrics := Returned [end_to_end_sample 1700000000] |}
           default_transformer
           {| load_data := fun _ => Returned false |}
           [end_to_end_sample 1700000000] (end_to_end_sample 1700000000)).
  - reflexivity.
  - reflexivity.
  - reflexivity.
  - reflexivity.
  - left. reflexivity.
  - reflexivity.
  - reflexivity.
  - intros data. reflexivity.
Defined.


